(** * Storage-mode resolution and upload addressing of the PowerPoint MCP server

    A shallow embedding of [utils/s3_utils.py] and
    [tools/presentation_tools.py].  Python strings are [string]s, the
    dictionaries the tools return and the presentation registry are
    [gmap]s keyed by strings, and the effects of the code (the process
    environment, the module-level handler, the registry, exceptions, calls
    of the document library and of the object-store client) are threaded
    through a small state-and-exception monad that also records every
    outward call in a trace. *)

From Stdlib Require Import String Ascii List Arith Lia DecimalString DecimalNat.
From stdpp Require Import base option strings gmap fin_maps.

Local Open Scope string_scope.

(** ** Python string operations used by the source *)

Module PyStr.

Definition slash : ascii := "/"%char.

(** [s.rstrip('/')]: every trailing "/" is removed. *)
Fixpoint rstrip_slash (s : string) : string :=
  match s with
  | EmptyString => EmptyString
  | String c r =>
      match rstrip_slash r with
      | EmptyString =>
          if Ascii.eqb c slash then EmptyString else String c EmptyString
      | r' => String c r'
      end
  end.

(** [s.endswith(suf)]: some tail of [s] is [suf]. *)
Fixpoint endswith (s suf : string) : bool :=
  String.eqb s suf ||
  match s with
  | EmptyString => false
  | String _ r => endswith r suf
  end.

(** ['/' in s] *)
Fixpoint has_slash (s : string) : bool :=
  match s with
  | EmptyString => false
  | String c r => Ascii.eqb c slash || has_slash r
  end.

(** [posixpath.basename(p)]: [p[p.rfind('/') + 1:]]. *)
Fixpoint basename (p : string) : string :=
  match p with
  | EmptyString => EmptyString
  | String c r =>
      if has_slash r then basename r
      else if Ascii.eqb c slash then r else p
  end.

(** [posixpath.join(d, n)] for two components. *)
Definition path_join (d n : string) : string :=
  match n with
  | String c _ =>
      if Ascii.eqb c slash then n
      else if String.eqb d EmptyString || endswith d "/" then d +:+ n
      else d +:+ "/" +:+ n
  | EmptyString =>
      if String.eqb d EmptyString || endswith d "/" then d else d +:+ "/"
  end.

(** [c.lower()] on one byte: only "A".."Z" change.  Bytes above 127
    (the UTF-8 encoding of non-ASCII text) are left alone; no non-ASCII
    character lowers to one of the letters of "true", so the comparison
    the source makes is decided the same way. *)
Definition lower_ascii (c : ascii) : ascii :=
  let n := nat_of_ascii c in
  if ((65 <=? n)%nat && (n <=? 90)%nat)%bool
  then ascii_of_nat (n + 32) else c.

Fixpoint lower (s : string) : string :=
  match s with
  | EmptyString => EmptyString
  | String c r => String (lower_ascii c) (lower r)
  end.

(** [str(n)] for a non-negative integer. *)
Definition str_of_nat (n : nat) : string :=
  NilZero.string_of_uint (Nat.to_uint n).

(** [', '.join(l)] *)
Fixpoint join_comma (l : list string) : string :=
  match l with
  | [] => EmptyString
  | [x] => x
  | x :: r => x +:+ ", " +:+ join_comma r
  end.

(** [n] copies of "/" *)
Fixpoint slashes (n : nat) : string :=
  match n with
  | O => EmptyString
  | S k => String slash (slashes k)
  end.

End PyStr.

(** ** Values, exceptions and the objects of the program *)

(** The exception classes the source names, and [OtherError] for every
    other subclass of [Exception]; the argument is [str(e)]. *)
Inductive exn : Type :=
| ValueError (msg : string)
| ClientError (msg : string)
| NoCredentialsError (msg : string)
| KeyError (key : string)
| AttributeError (msg : string)
| OtherError (msg : string).

Definition exn_str (e : exn) : string :=
  match e with
  | ValueError m | ClientError m | NoCredentialsError m
  | AttributeError m | OtherError m => m
  | KeyError k => "'" +:+ k +:+ "'"
  end.

Inductive Outcome (A : Type) : Type :=
| Ret (a : A)
| Raise (e : exn).
Arguments Ret {A} a.
Arguments Raise {A} e.

(** Values stored in the dictionaries the tools return. *)
Inductive PyVal : Type :=
| VBool (b : bool)
| VStr (s : string)
| VInt (n : nat)
| VNone.

Abbreviation Dict := (gmap string PyVal).

(** Python truthiness of a dictionary value. *)
Definition truthy (v : PyVal) : bool :=
  match v with
  | VBool b => b
  | VStr s => negb (String.eqb s EmptyString)
  | VInt n => negb (Nat.eqb n 0)
  | VNone => false
  end.

(** What an f-string prints for a value. *)
Definition str_of_val (v : PyVal) : string :=
  match v with
  | VBool true => "True"
  | VBool false => "False"
  | VStr s => s
  | VInt n => PyStr.str_of_nat n
  | VNone => "None"
  end.

Definition val_of_opt (o : option string) : PyVal :=
  match o with
  | Some s => VStr s
  | None => VNone
  end.

(** What an f-string prints for an optional string. *)
Definition str_of_opt (o : option string) : string :=
  match o with
  | Some s => s
  | None => "None"
  end.

(** [not x] for an optional string: [None] and the empty string are falsy. *)
Definition falsy_opt (o : option string) : bool :=
  match o with
  | None => true
  | Some s => String.eqb s EmptyString
  end.

(** An in-memory document of the document library: an opaque handle
    with the two collections the tools count. *)
Record Presentation : Type := {
  pres_obj : nat;
  slides : list nat;
  slide_layouts : list nat
}.

(** The object-store client [boto3.client('s3', ...)] returns. *)
Record Client : Type := {
  aws_access_key_id : option string;
  aws_secret_access_key : option string;
  region_name : string
}.

(** An instance of [S3Handler]; [handler_obj] is the identity of the
    Python object. *)
Record S3Handler : Type := {
  handler_obj : nat;
  s3_enabled : bool;
  s3_bucket : option string;
  s3_prefix : string;
  s3_region : string;
  s3_client : option Client
}.

(** Outward calls, in the order the program makes them. *)
Inductive Event : Type :=
| EvGetenv (name : string)
| EvBotoClient (region : string)
| EvSerialize (prs : Presentation)
| EvUploadFileobj (bucket : option string) (key : string) (content_type : string)
| EvPresign (bucket : option string) (key : string) (expires : nat)
| EvLocalSave (prs : Presentation) (path : string)
| EvDocLib (operation : string).

(** The mutable state of the process: [os.environ], the module global
    [_s3_handler], the registry [presentations] the tools close over,
    the trace of outward calls and the next free object identity. *)
Record State : Type := {
  environ : gmap string string;
  _s3_handler : option S3Handler;
  presentations : gmap string Presentation;
  trace : list Event;
  next_obj : nat
}.

(** ** The monad of the program: state, exceptions, trace *)

Definition M (A : Type) : Type := State -> Outcome A * State.

Definition ret {A} (a : A) : M A := fun st => (Ret a, st).

Definition raise {A} (e : exn) : M A := fun st => (Raise e, st).

Definition bind {A B} (m : M A) (k : A -> M B) : M B :=
  fun st =>
    match m st with
    | (Ret a, st') => k a st'
    | (Raise e, st') => (Raise e, st')
    end.

Notation "x <- m ;; k" := (bind m (fun x => k))
  (at level 100, m at next level, right associativity).
Notation "m ;;; k" := (bind m (fun _ => k))
  (at level 100, right associativity).

(** [try: m except ...]: [handler e] is the body of the first clause
    that matches [e], or [None] when no clause does and [e] goes on.
    What [m] did to the state before raising stays done. *)
Definition try_except {A} (m : M A) (handler : exn -> option (M A)) : M A :=
  fun st =>
    match m st with
    | (Ret a, st') => (Ret a, st')
    | (Raise e, st') =>
        match handler e with
        | Some h => h st'
        | None => (Raise e, st')
        end
    end.

Definition get_state : M State := fun st => (Ret st, st).

Definition log (ev : Event) : M unit :=
  fun st =>
    (Ret tt,
     {| environ := environ st; _s3_handler := _s3_handler st;
        presentations := presentations st;
        trace := trace st ++ [ev]; next_obj := next_obj st |}).

(** An outward call: recorded in the trace, then the collaborator's
    answer. *)
Definition call {A} (ev : Event) (answer : Outcome A) : M A :=
  log ev ;;; (fun st => (answer, st)).

Definition fresh_obj : M nat :=
  fun st =>
    (Ret (next_obj st),
     {| environ := environ st; _s3_handler := _s3_handler st;
        presentations := presentations st;
        trace := trace st; next_obj := S (next_obj st) |}).

Definition set_s3_handler (h : S3Handler) : M unit :=
  fun st =>
    (Ret tt,
     {| environ := environ st; _s3_handler := Some h;
        presentations := presentations st;
        trace := trace st; next_obj := next_obj st |}).

(** [presentations[id] = pres] *)
Definition store_presentation (id : string) (pres : Presentation) : M unit :=
  fun st =>
    (Ret tt,
     {| environ := environ st; _s3_handler := _s3_handler st;
        presentations := <[id := pres]> (presentations st);
        trace := trace st; next_obj := next_obj st |}).

(** [os.getenv(name)] *)
Definition getenv (name : string) : M (option string) :=
  log (EvGetenv name) ;;;
  st <- get_state ;;
  ret (environ st !! name).

(** [os.getenv(name, dflt)] *)
Definition getenv_default (name dflt : string) : M string :=
  v <- getenv name ;;
  ret (default dflt v).

(** [d[k]] *)
Definition getitem (d : Dict) (k : string) : M PyVal :=
  match d !! k with
  | Some v => ret v
  | None => raise (KeyError k)
  end.

(** ** Collaborators

    The document library [utils] (imported as [ppt_utils]), the
    filesystem test [os.path.exists], the object-store client and the two
    callbacks handed to [register_presentation_tools] are outside the
    program: each is a function from its arguments to a result or an
    exception. *)
Record Collaborators : Type := {
  ppt_create_presentation : Outcome Presentation;
  ppt_create_presentation_from_template : string -> Outcome Presentation;
  ppt_open_presentation : string -> Outcome Presentation;
  ppt_save_presentation : Presentation -> string -> Outcome string;
  ppt_get_presentation_info : Presentation -> Outcome Dict;
  ppt_get_template_info : string -> Outcome Dict;
  ppt_set_core_properties :
    Presentation -> option string -> option string -> option string ->
    option string -> option string -> Outcome unit;
  os_path_exists : string -> bool;
  prs_save : Presentation -> Outcome string;
  boto3_client : option string -> option string -> string -> Outcome unit;
  upload_fileobj : Client -> string -> option string -> string -> Outcome unit;
  client_generate_presigned_url :
    Client -> option string -> string -> nat -> Outcome string;
  get_current_presentation_id : Outcome (option string);
  get_template_search_directories : Outcome (list string)
}.

Definition pptx_content_type : string :=
  "application/vnd.openxmlformats-officedocument.presentationml.presentation".

Definition newline : string := String (ascii_of_nat 10) EmptyString.

(** A dictionary display [{k1: v1, ...}]; the keys of every display in
    the source are distinct. *)
Definition dict_of (l : list (string * PyVal)) : Dict := list_to_map l.

(** ** [utils/s3_utils.py] *)

Section Program.

Variable W : Collaborators.

(** A collaborator's answer, with nothing recorded. *)
Definition lift {A} (answer : Outcome A) : M A := fun st => (answer, st).

(** [S3Handler.__init__] *)
Definition S3Handler_init : M S3Handler :=
  self <- fresh_obj ;;
  flag <- getenv_default "S3_ENABLED" "false" ;;
  let enabled := String.eqb (PyStr.lower flag) "true" in
  bucket <- getenv "S3_BUCKET_NAME" ;;
  prefix <- getenv_default "S3_PREFIX" "presentations/" ;;
  region <- getenv_default "AWS_DEFAULT_REGION" "us-east-1" ;;
  if enabled then
    if falsy_opt bucket then
      raise (ValueError "S3_ENABLED is true but S3_BUCKET_NAME is not set")
    else
      client <-
        try_except
          (key_id <- getenv "AWS_ACCESS_KEY_ID" ;;
           secret <- getenv "AWS_SECRET_ACCESS_KEY" ;;
           call (EvBotoClient region) (boto3_client W key_id secret region) ;;;
           ret {| aws_access_key_id := key_id;
                  aws_secret_access_key := secret;
                  region_name := region |})
          (fun e =>
             match e with
             | NoCredentialsError _ =>
                 Some (raise (ValueError "AWS credentials not configured properly"))
             | _ => None
             end) ;;
      ret {| handler_obj := self; s3_enabled := enabled; s3_bucket := bucket;
             s3_prefix := prefix; s3_region := region;
             s3_client := Some client |}
  else
    ret {| handler_obj := self; s3_enabled := enabled; s3_bucket := bucket;
           s3_prefix := prefix; s3_region := region; s3_client := None |}.

(** [self.s3_client.m(...)]: the attribute of [None] does not exist. *)
Definition the_client (self : S3Handler) (method : string) : M Client :=
  match s3_client self with
  | Some c => ret c
  | None =>
      raise (AttributeError
               ("'NoneType' object has no attribute '" +:+ method +:+ "'"))
  end.

(** The filename after "Ensure filename has .pptx extension". *)
Definition pptx_filename (filename : string) : string :=
  if negb (PyStr.endswith filename ".pptx") then filename +:+ ".pptx"
  else filename.

(** [f"{self.s3_prefix.rstrip('/')}/{filename}"] *)
Definition s3_key_of (prefix filename : string) : string :=
  PyStr.rstrip_slash prefix +:+ "/" +:+ filename.

(** [f"s3://{self.s3_bucket}/{s3_key}"] *)
Definition s3_url_of (bucket : option string) (s3_key : string) : string :=
  "s3://" +:+ str_of_opt bucket +:+ "/" +:+ s3_key.

(** [f"https://{self.s3_bucket}.s3.{self.s3_region}.amazonaws.com/{s3_key}"] *)
Definition https_url_of (bucket : option string) (region s3_key : string)
  : string :=
  "https://" +:+ str_of_opt bucket +:+ ".s3." +:+ region
  +:+ ".amazonaws.com/" +:+ s3_key.

(** [S3Handler.upload_presentation] *)
Definition upload_presentation (self : S3Handler) (prs : Presentation)
    (filename : string) : M Dict :=
  if negb (s3_enabled self) then
    raise (ValueError "S3 is not enabled. Set S3_ENABLED=true")
  else
    try_except
      (buffer <- call (EvSerialize prs) (prs_save W prs) ;;
       let filename := pptx_filename filename in
       let s3_key := s3_key_of (s3_prefix self) filename in
       client <- the_client self "upload_fileobj" ;;
       call (EvUploadFileobj (s3_bucket self) s3_key pptx_content_type)
            (upload_fileobj W client buffer (s3_bucket self) s3_key) ;;;
       let s3_url := s3_url_of (s3_bucket self) s3_key in
       let https_url := https_url_of (s3_bucket self) (s3_region self) s3_key in
       ret (dict_of [("success", VBool true);
                     ("s3_url", VStr s3_url);
                     ("https_url", VStr https_url);
                     ("bucket", val_of_opt (s3_bucket self));
                     ("key", VStr s3_key);
                     ("filename", VStr filename)]))
      (fun e =>
         match e with
         | ClientError _ =>
             let error_msg := "Failed to upload to S3: " +:+ exn_str e in
             Some (ret (dict_of [("success", VBool false);
                                 ("error", VStr error_msg)]))
         | _ => None
         end).

(** [S3Handler.generate_presigned_url] *)
Definition generate_presigned_url (self : S3Handler) (s3_key : string)
    (expiration : nat) : M (option string) :=
  if negb (s3_enabled self) then ret None
  else
    try_except
      (client <- the_client self "generate_presigned_url" ;;
       url <- call (EvPresign (s3_bucket self) s3_key expiration)
                   (client_generate_presigned_url W client (s3_bucket self)
                      s3_key expiration) ;;
       ret (Some url))
      (fun e =>
         match e with
         | ClientError _ => Some (ret None)
         | _ => None
         end).

(** [get_s3_handler] *)
Definition get_s3_handler : M S3Handler :=
  st <- get_state ;;
  match _s3_handler st with
  | None =>
      h <- S3Handler_init ;;
      set_s3_handler h ;;;
      ret h
  | Some h => ret h
  end.

(** ** [tools/presentation_tools.py]

    The tools [register_presentation_tools] registers.  Calls of [logger]
    are not modelled. *)

Definition not_loaded_msg : string :=
  "No presentation is currently loaded or the specified ID is invalid".

(** [pres_id is None or pres_id not in presentations] fails the lookup;
    otherwise [presentations[pres_id]]. *)
Definition find_presentation (registry : gmap string Presentation)
    (pres_id : option string) : option (string * Presentation) :=
  match pres_id with
  | None => None
  | Some i =>
      match registry !! i with
      | None => None
      | Some pres => Some (i, pres)
      end
  end.

(** [presentation_id if presentation_id is not None else
    get_current_presentation_id()] *)
Definition requested_id (presentation_id : option string)
  : Outcome (option string) :=
  match presentation_id with
  | Some i => Ret (Some i)
  | None => get_current_presentation_id W
  end.

Definition resolve_presentation_id (presentation_id : option string)
  : M (option string) :=
  lift (requested_id presentation_id).

(** [f"presentation_{len(presentations) + 1}"] when no id is given. *)
Definition assign_id (id : option string) : M string :=
  match id with
  | Some i => ret i
  | None =>
      st <- get_state ;;
      ret ("presentation_" +:+ PyStr.str_of_nat (size (presentations st) + 1))
  end.

Definition create_presentation (id : option string) : M Dict :=
  pres <- call (EvDocLib "create_presentation") (ppt_create_presentation W) ;;
  id <- assign_id id ;;
  store_presentation id pres ;;;
  ret (dict_of [("presentation_id", VStr id);
                ("message", VStr ("Created new presentation with ID: " +:+ id));
                ("slide_count", VInt (length (slides pres)))]).

(** The [for ... else] search of both template tools: the first
    configured directory that holds the template's base name. *)
Definition search_template (search_dirs : list string) (template_name : string)
  : option string :=
  match find (fun d => os_path_exists W (PyStr.path_join d template_name))
             search_dirs with
  | Some d => Some (PyStr.path_join d template_name)
  | None => None
  end.

Definition create_presentation_from_template (template_path : string)
    (id : option string) : M Dict :=
  located <-
    (if negb (os_path_exists W template_path) then
       search_dirs <- lift (get_template_search_directories W) ;;
       let template_name := PyStr.basename template_path in
       match search_template search_dirs template_name with
       | Some potential_path => ret (inl potential_path)
       | None =>
           probe <- getenv "PPT_TEMPLATE_PATH" ;;
           env_path_info <-
             (if negb (falsy_opt probe) then
                v <- getenv_default "PPT_TEMPLATE_PATH" "not set" ;;
                ret (" (PPT_TEMPLATE_PATH: " +:+ v +:+ ")")
              else ret EmptyString) ;;
           ret (inr (dict_of
                  [("error",
                    VStr ("Template file not found: " +:+ template_path
                          +:+ ". Searched in " +:+ PyStr.join_comma search_dirs
                          +:+ env_path_info))]))
       end
     else ret (inl template_path)) ;;
  match located with
  | inr failure => ret failure
  | inl template_path =>
      attempt <-
        try_except
          (pres <- call (EvDocLib "create_presentation_from_template")
                        (ppt_create_presentation_from_template W template_path) ;;
           ret (inl pres))
          (fun e =>
             Some (ret (inr (dict_of
                     [("error",
                       VStr ("Failed to create presentation from template: "
                             +:+ exn_str e))])))) ;;
      match attempt with
      | inr failure => ret failure
      | inl pres =>
          id <- assign_id id ;;
          store_presentation id pres ;;;
          ret (dict_of
                 [("presentation_id", VStr id);
                  ("message",
                   VStr ("Created new presentation from template '"
                         +:+ template_path +:+ "' with ID: " +:+ id));
                  ("template_path", VStr template_path);
                  ("slide_count", VInt (length (slides pres)));
                  ("layout_count", VInt (length (slide_layouts pres)))])
      end
  end.

Definition open_presentation (file_path : string) (id : option string)
  : M Dict :=
  if negb (os_path_exists W file_path) then
    ret (dict_of [("error", VStr ("File not found: " +:+ file_path))])
  else
    attempt <-
      try_except
        (pres <- call (EvDocLib "open_presentation")
                      (ppt_open_presentation W file_path) ;;
         ret (inl pres))
        (fun e =>
           Some (ret (inr (dict_of
                   [("error",
                     VStr ("Failed to open presentation: " +:+ exn_str e))])))) ;;
    match attempt with
    | inr failure => ret failure
    | inl pres =>
        id <- assign_id id ;;
        store_presentation id pres ;;;
        ret (dict_of
               [("presentation_id", VStr id);
                ("message",
                 VStr ("Opened presentation from " +:+ file_path
                       +:+ " with ID: " +:+ id));
                ("slide_count", VInt (length (slides pres)))])
    end.

(** A dictionary value handed on where the callee takes a [str]. *)
Definition as_str (v : PyVal) : M string :=
  match v with
  | VStr s => ret s
  | _ => raise (OtherError "Parameter validation failed")
  end.

(** The remote branch of [save_presentation], inside its [try]. *)
Definition save_to_s3 (s3_handler : S3Handler) (pres : Presentation)
    (file_path pres_id : string) : M Dict :=
  let filename := PyStr.basename file_path in
  result <- upload_presentation s3_handler pres filename ;;
  ok <- getitem result "success" ;;
  if truthy ok then
    key <- getitem result "key" ;;
    key_str <- as_str key ;;
    presigned_url <- generate_presigned_url s3_handler key_str 3600 ;;
    s3_url <- getitem result "s3_url" ;;
    https_url <- getitem result "https_url" ;;
    bucket <- getitem result "bucket" ;;
    fname <- getitem result "filename" ;;
    let message := "Presentation saved to S3: " +:+ str_of_val s3_url in
    let response :=
      dict_of [("success", VBool true);
               ("message", VStr message);
               ("storage_type", VStr "s3");
               ("s3_url", s3_url);
               ("https_url", https_url);
               ("bucket", bucket);
               ("key", key);
               ("filename", fname);
               ("presentation_id", VStr pres_id)] in
    if negb (falsy_opt presigned_url) then
      let url := default EmptyString presigned_url in
      ret (<["message" :=
               VStr (message +:+ newline +:+ newline
                     +:+ "Temporary download URL (expires in 1 hour):"
                     +:+ newline +:+ url)]>
           (<["presigned_url_expires" := VStr "1 hour"]>
            (<["presigned_url" := VStr url]> response)))
    else ret response
  else
    ret (dict_of [("success", VBool false);
                  ("storage_type", VStr "s3");
                  ("error",
                   default (VStr "Failed to upload to S3") (result !! "error"))]).

(** The local branch of [save_presentation], inside its [try]. *)
Definition save_to_local (pres : Presentation) (file_path pres_id : string)
  : M Dict :=
  saved_path <- call (EvLocalSave pres file_path)
                     (ppt_save_presentation W pres file_path) ;;
  ret (dict_of [("success", VBool true);
                ("message",
                 VStr ("Presentation saved to local file: " +:+ saved_path));
                ("storage_type", VStr "local");
                ("file_path", VStr saved_path);
                ("presentation_id", VStr pres_id)]).

(** The two [except] clauses of [save_presentation]: [ValueError]
    first, then every other [Exception]. *)
Definition save_except (e : exn) : option (M Dict) :=
  match e with
  | ValueError _ =>
      Some (ret (dict_of
              [("success", VBool false);
               ("error",
                VStr ("Configuration error: " +:+ exn_str e
                      +:+ ". Please check your S3 environment variables."))]))
  | _ =>
      Some (ret (dict_of
              [("success", VBool false);
               ("error",
                VStr ("Failed to save presentation: " +:+ exn_str e))]))
  end.

Definition save_presentation (file_path : string)
    (presentation_id : option string) : M Dict :=
  pres_id <- resolve_presentation_id presentation_id ;;
  st <- get_state ;;
  match find_presentation (presentations st) pres_id with
  | None =>
      ret (dict_of [("success", VBool false); ("error", VStr not_loaded_msg)])
  | Some (pres_id, pres) =>
      try_except
        (s3_handler <- get_s3_handler ;;
         if s3_enabled s3_handler then
           save_to_s3 s3_handler pres file_path pres_id
         else
           save_to_local pres file_path pres_id)
        save_except
  end.

Definition get_presentation_info (presentation_id : option string) : M Dict :=
  pres_id <- resolve_presentation_id presentation_id ;;
  st <- get_state ;;
  match find_presentation (presentations st) pres_id with
  | None => ret (dict_of [("error", VStr not_loaded_msg)])
  | Some (pres_id, pres) =>
      try_except
        (info <- call (EvDocLib "get_presentation_info")
                      (ppt_get_presentation_info W pres) ;;
         ret (<["presentation_id" := VStr pres_id]> info))
        (fun e =>
           Some (ret (dict_of
                   [("error",
                     VStr ("Failed to get presentation info: " +:+ exn_str e))])))
  end.

Definition get_template_file_info (template_path : string) : M Dict :=
  located <-
    (if negb (os_path_exists W template_path) then
       search_dirs <- lift (get_template_search_directories W) ;;
       let template_name := PyStr.basename template_path in
       match search_template search_dirs template_name with
       | Some potential_path => ret (inl potential_path)
       | None =>
           ret (inr (dict_of
                  [("error",
                    VStr ("Template file not found: " +:+ template_path
                          +:+ ". Searched in "
                          +:+ PyStr.join_comma search_dirs))]))
       end
     else ret (inl template_path)) ;;
  match located with
  | inr failure => ret failure
  | inl template_path =>
      try_except
        (call (EvDocLib "get_template_info")
              (ppt_get_template_info W template_path))
        (fun e =>
           Some (ret (dict_of
                   [("error",
                     VStr ("Failed to get template info: " +:+ exn_str e))])))
  end.

Definition set_core_properties (title subject author keywords comments
    presentation_id : option string) : M Dict :=
  pres_id <- resolve_presentation_id presentation_id ;;
  st <- get_state ;;
  match find_presentation (presentations st) pres_id with
  | None => ret (dict_of [("error", VStr not_loaded_msg)])
  | Some (pres_id, pres) =>
      try_except
        (call (EvDocLib "set_core_properties")
              (ppt_set_core_properties W pres title subject author keywords
                 comments) ;;;
         ret (dict_of [("success", VBool true);
                       ("message", VStr "Core properties updated successfully")]))
        (fun e =>
           Some (ret (dict_of
                   [("success", VBool false);
                    ("error",
                     VStr ("Failed to set core properties: " +:+ exn_str e))])))
  end.

Definition get_storage_mode : M Dict :=
  try_except
    (s3_handler <- get_s3_handler ;;
     if s3_enabled s3_handler then
       ret (dict_of
              [("success", VBool true);
               ("storage_mode", VStr "s3");
               ("s3_bucket", val_of_opt (s3_bucket s3_handler));
               ("s3_prefix", VStr (s3_prefix s3_handler));
               ("s3_region", VStr (s3_region s3_handler));
               ("message",
                VStr "S3 storage is ENABLED - presentations will be saved to S3")])
     else
       ret (dict_of
              [("success", VBool true);
               ("storage_mode", VStr "local");
               ("message",
                VStr "Local storage is active - presentations will be saved to local file system")]))
    (fun e =>
       Some (ret (dict_of
               [("success", VBool false);
                ("error", VStr ("Failed to get storage mode: " +:+ exn_str e))]))).

End Program.

(** ** Observing a run *)

(** [st] after the outward calls [evs], nothing else changed. *)
Definition add_trace (st : State) (evs : list Event) : State :=
  {| environ := environ st; _s3_handler := _s3_handler st;
     presentations := presentations st;
     trace := trace st ++ evs; next_obj := next_obj st |}.

(** The outward calls made between two states of one run. *)
Definition events_since (st0 st1 : State) : list Event :=
  drop (length (trace st0)) (trace st1).

(** Calls that construct or use the object-store client. *)
Definition is_remote_event (ev : Event) : bool :=
  match ev with
  | EvBotoClient _ | EvUploadFileobj _ _ _ | EvPresign _ _ _ => true
  | _ => false
  end.

(** Calls that write to the local filesystem. *)
Definition is_local_write (ev : Event) : bool :=
  match ev with
  | EvLocalSave _ _ => true
  | _ => false
  end.

(** Reads of the process environment. *)
Definition is_getenv (ev : Event) : bool :=
  match ev with
  | EvGetenv _ => true
  | _ => false
  end.

(** Reads of the environment and construction of the client: what
    [get_s3_handler] may do. *)
Definition is_config_event (ev : Event) : bool :=
  match ev with
  | EvGetenv _ | EvBotoClient _ => true
  | _ => false
  end.

(** The bucket and key of every upload in a trace. *)
Definition uploads (evs : list Event) : list (option string * string) :=
  omap (fun ev =>
          match ev with
          | EvUploadFileobj b k _ => Some (b, k)
          | _ => None
          end) evs.

(** The document and path of every local save in a trace. *)
Definition local_saves (evs : list Event) : list (Presentation * string) :=
  omap (fun ev =>
          match ev with
          | EvLocalSave p path => Some (p, path)
          | _ => None
          end) evs.

(** What the environment asks for: [S3_ENABLED], lowered, is "true". *)
Definition remote_requested (env : gmap string string) : bool :=
  String.eqb (PyStr.lower (default "false" (env !! "S3_ENABLED"))) "true".

(** The invariant of the data model: enabled implies a non-empty bucket. *)
Definition bucket_invariant (h : S3Handler) : bool :=
  implb (s3_enabled h) (negb (falsy_opt (s3_bucket h))).

(** [os.environ] replaced between two calls. *)
Definition set_environ (env : gmap string string) (st : State) : State :=
  {| environ := env; _s3_handler := _s3_handler st;
     presentations := presentations st;
     trace := trace st; next_obj := next_obj st |}.

(** A sequence of calls of [get_s3_handler] in one process, one per
    element of [envs], each made with the environment as it then is. *)
Fixpoint get_s3_handler_calls (W : Collaborators)
    (envs : list (gmap string string)) (st : State)
  : list (Outcome S3Handler) * State :=
  match envs with
  | [] => ([], st)
  | env :: rest =>
      let '(r, st1) := get_s3_handler W (set_environ env st) in
      let '(rs, st2) := get_s3_handler_calls W rest st1 in
      (r :: rs, st2)
  end.

(** The identifier the tools generate when none is given. *)
Definition auto_id (registry : gmap string Presentation) : string :=
  "presentation_" +:+ PyStr.str_of_nat (size registry + 1).

(** The dictionary [upload_presentation] returns after a successful
    upload of [filename] (extension already ensured). *)
Definition upload_result (self : S3Handler) (filename : string) : Dict :=
  let s3_key := s3_key_of (s3_prefix self) filename in
  dict_of [("success", VBool true);
           ("s3_url", VStr (s3_url_of (s3_bucket self) s3_key));
           ("https_url",
            VStr (https_url_of (s3_bucket self) (s3_region self) s3_key));
           ("bucket", val_of_opt (s3_bucket self));
           ("key", VStr s3_key);
           ("filename", VStr filename)].

(** The dictionary [upload_presentation] returns for a [ClientError]. *)
Definition upload_failure (e : exn) : Dict :=
  dict_of [("success", VBool false);
           ("error", VStr ("Failed to upload to S3: " +:+ exn_str e))].

(** What becomes of an exception under [except ClientError]. *)
Definition on_client_error {A} (e : exn) (caught : A) : Outcome A :=
  match e with
  | ClientError _ => Ret caught
  | _ => Raise e
  end.

(** The key a save of [file_path] through [self] addresses. *)
Definition remote_key (self : S3Handler) (file_path : string) : string :=
  s3_key_of (s3_prefix self) (pptx_filename (PyStr.basename file_path)).

(** The outward calls of a remote save, in order; a save that fails on
    the way makes a prefix of them. *)
Definition remote_save_calls (self : S3Handler) (pres : Presentation)
    (file_path : string) : list Event :=
  [EvSerialize pres;
   EvUploadFileobj (s3_bucket self) (remote_key self file_path)
     pptx_content_type;
   EvPresign (s3_bucket self) (remote_key self file_path) 3600].

(** The response of [save_presentation] after a successful upload,
    before any signed URL is added to it. *)
Definition s3_response (self : S3Handler) (file_path pres_id : string) : Dict :=
  let filename := pptx_filename (PyStr.basename file_path) in
  let key := remote_key self file_path in
  dict_of [("success", VBool true);
           ("message",
            VStr ("Presentation saved to S3: "
                  +:+ s3_url_of (s3_bucket self) key));
           ("storage_type", VStr "s3");
           ("s3_url", VStr (s3_url_of (s3_bucket self) key));
           ("https_url",
            VStr (https_url_of (s3_bucket self) (s3_region self) key));
           ("bucket", val_of_opt (s3_bucket self));
           ("key", VStr key);
           ("filename", VStr filename);
           ("presentation_id", VStr pres_id)].

(** What a remote save reports about the object it stored. *)
Definition addressed (h : S3Handler) (file_path : string) (d : Dict) : Prop :=
  let key := remote_key h file_path in
  d !! "key" = Some (VStr key) /\
  d !! "filename" = Some (VStr (pptx_filename (PyStr.basename file_path))) /\
  d !! "s3_url" = Some (VStr (s3_url_of (s3_bucket h) key)) /\
  d !! "https_url"
  = Some (VStr (https_url_of (s3_bucket h) (s3_region h) key)) /\
  d !! "bucket" = Some (val_of_opt (s3_bucket h)).

(** [result.get(k)] on what a tool returned; [None] when it raised. *)
Definition result_field (r : Outcome Dict) (k : string) : option PyVal :=
  match r with
  | Ret d => d !! k
  | Raise _ => None
  end.

(** ** Concrete processes for the examples *)

Definition demo_pres : Presentation :=
  {| pres_obj := 0; slides := [1]; slide_layouts := [1; 2] |}.

(** A second document, and a document library that hands it out. *)
Definition other_pres : Presentation :=
  {| pres_obj := 1; slides := []; slide_layouts := [1; 2] |}.

(** Every collaborator answers. *)
Definition demo_world : Collaborators :=
  {| ppt_create_presentation := Ret demo_pres;
     ppt_create_presentation_from_template := fun _ => Ret demo_pres;
     ppt_open_presentation := fun _ => Ret demo_pres;
     ppt_save_presentation := fun _ path => Ret path;
     ppt_get_presentation_info := fun _ => Ret (dict_of [("slide_count", VInt 1)]);
     ppt_get_template_info := fun _ => Ret (dict_of [("layout_count", VInt 2)]);
     ppt_set_core_properties := fun _ _ _ _ _ _ => Ret tt;
     os_path_exists := fun _ => true;
     prs_save := fun _ => Ret "PK";
     boto3_client := fun _ _ _ => Ret tt;
     upload_fileobj := fun _ _ _ _ => Ret tt;
     client_generate_presigned_url :=
       fun _ _ key _ => Ret ("https://signed.example/" +:+ key);
     get_current_presentation_id := Ret None;
     get_template_search_directories := Ret ["."; "./templates"] |}.

Definition other_world : Collaborators :=
  {| ppt_create_presentation := Ret other_pres;
     ppt_create_presentation_from_template := fun _ => Ret other_pres;
     ppt_open_presentation := fun _ => Ret other_pres;
     ppt_save_presentation := fun _ path => Ret path;
     ppt_get_presentation_info := fun _ => Ret (dict_of [("slide_count", VInt 0)]);
     ppt_get_template_info := fun _ => Ret (dict_of [("layout_count", VInt 2)]);
     ppt_set_core_properties := fun _ _ _ _ _ _ => Ret tt;
     os_path_exists := fun _ => true;
     prs_save := fun _ => Ret "PK";
     boto3_client := fun _ _ _ => Ret tt;
     upload_fileobj := fun _ _ _ _ => Ret tt;
     client_generate_presigned_url :=
       fun _ _ key _ => Ret ("https://signed.example/" +:+ key);
     get_current_presentation_id := Ret None;
     get_template_search_directories := Ret ["."; "./templates"] |}.

(** A document library whose blank-presentation constructor fails. *)
Definition broken_library_world : Collaborators :=
  {| ppt_create_presentation := Raise (OtherError "Package not found");
     ppt_create_presentation_from_template :=
       fun _ => Raise (OtherError "Package not found");
     ppt_open_presentation := fun _ => Raise (OtherError "Package not found");
     ppt_save_presentation := fun _ _ => Raise (OtherError "disk full");
     ppt_get_presentation_info := fun _ => Raise (OtherError "corrupt");
     ppt_get_template_info := fun _ => Raise (OtherError "corrupt");
     ppt_set_core_properties := fun _ _ _ _ _ _ => Raise (OtherError "corrupt");
     os_path_exists := fun _ => true;
     prs_save := fun _ => Raise (OtherError "corrupt");
     boto3_client := fun _ _ _ => Ret tt;
     upload_fileobj := fun _ _ _ _ => Raise (ClientError "AccessDenied");
     client_generate_presigned_url := fun _ _ _ _ => Raise (ClientError "AccessDenied");
     get_current_presentation_id := Ret None;
     get_template_search_directories := Ret ["."; "./templates"] |}.

(** The object store accepts uploads and refuses to sign. *)
Definition no_presign_world : Collaborators :=
  {| ppt_create_presentation := Ret demo_pres;
     ppt_create_presentation_from_template := fun _ => Ret demo_pres;
     ppt_open_presentation := fun _ => Ret demo_pres;
     ppt_save_presentation := fun _ path => Ret path;
     ppt_get_presentation_info := fun _ => Ret (dict_of [("slide_count", VInt 1)]);
     ppt_get_template_info := fun _ => Ret (dict_of [("layout_count", VInt 2)]);
     ppt_set_core_properties := fun _ _ _ _ _ _ => Ret tt;
     os_path_exists := fun _ => true;
     prs_save := fun _ => Ret "PK";
     boto3_client := fun _ _ _ => Ret tt;
     upload_fileobj := fun _ _ _ _ => Ret tt;
     client_generate_presigned_url := fun _ _ _ _ => Raise (ClientError "AccessDenied");
     get_current_presentation_id := Ret (Some "deck");
     get_template_search_directories := Ret ["."; "./templates"] |}.

Definition initial_state (env : gmap string string)
    (registry : gmap string Presentation) : State :=
  {| environ := env; _s3_handler := None; presentations := registry;
     trace := []; next_obj := 0 |}.

Definition demo_env : gmap string string :=
  list_to_map [("S3_ENABLED", "true"); ("S3_BUCKET_NAME", "demo-bucket");
               ("S3_PREFIX", "presentations/")].

Definition local_env : gmap string string :=
  list_to_map [("S3_ENABLED", "false"); ("S3_BUCKET_NAME", "demo-bucket")].

(** The environment of a process that enables remote mode and names no
    bucket. *)
Definition no_bucket_env : gmap string string :=
  list_to_map [("S3_ENABLED", "TRUE"); ("S3_PREFIX", "decks/")].

Definition demo_registry : gmap string Presentation :=
  {[ "deck" := demo_pres ]}.

(** The handler a process with [demo_env] constructs first. *)
Definition demo_handler : S3Handler :=
  {| handler_obj := 0; s3_enabled := true;
     s3_bucket := Some "demo-bucket"; s3_prefix := "presentations/";
     s3_region := "us-east-1";
     s3_client := Some {| aws_access_key_id := None;
                          aws_secret_access_key := None;
                          region_name := "us-east-1" |} |}.

(** The handler [S3Handler()] builds first in a fresh process when the
    environment leaves remote mode off. *)
Definition fst_handler_of (env : gmap string string) : S3Handler :=
  {| handler_obj := 0; s3_enabled := false;
     s3_bucket := env !! "S3_BUCKET_NAME";
     s3_prefix := default "presentations/" (env !! "S3_PREFIX");
     s3_region := default "us-east-1" (env !! "AWS_DEFAULT_REGION");
     s3_client := None |}.

(** ** Further observations *)

(** The [i]-th generated identifier. *)
Definition id_of (i : nat) : string :=
  "presentation_" +:+ PyStr.str_of_nat i.

(** [n] calls of [create_presentation()] in a row, no identifier given. *)
Fixpoint create_n (W : Collaborators) (n : nat) (st : State) : State :=
  match n with
  | O => st
  | S k => snd (create_presentation W None (create_n W k st))
  end.

(** A computation that leaves the registry [presentations] as it found
    it, whatever it returns or raises. *)
Definition keeps_registry {A} (m : M A) : Prop :=
  forall st, presentations (snd (m st)) = presentations st.

(** [c] is the letter [lo] in either case. *)
Definition letter (lo up c : ascii) : Prop := c = lo \/ c = up.

(** The dictionary [save_presentation] returns from its generic
    [except Exception] clause. *)
Definition save_failed (e : exn) : Dict :=
  dict_of [("success", VBool false);
           ("error", VStr ("Failed to save presentation: " +:+ exn_str e))].

(** The dictionary [save_presentation] returns from its
    [except ValueError] clause. *)
Definition configuration_error (e : exn) : Dict :=
  dict_of [("success", VBool false);
           ("error",
            VStr ("Configuration error: " +:+ exn_str e
                  +:+ ". Please check your S3 environment variables."))].

(** The dictionary the tools return for an unknown presentation, with
    and without a [success] field. *)
Definition not_loaded (with_success : bool) : Dict :=
  if with_success then
    dict_of [("success", VBool false); ("error", VStr not_loaded_msg)]
  else dict_of [("error", VStr not_loaded_msg)].

(** The response of [save_presentation] after a successful upload and a
    signed URL [url]. *)
Definition s3_response_signed (self : S3Handler) (file_path pres_id url : string)
  : Dict :=
  <["message" :=
      VStr (("Presentation saved to S3: "
             +:+ s3_url_of (s3_bucket self) (remote_key self file_path))
            +:+ newline +:+ newline
            +:+ "Temporary download URL (expires in 1 hour):"
            +:+ newline +:+ url)]>
    (<["presigned_url_expires" := VStr "1 hour"]>
       (<["presigned_url" := VStr url]>
          (s3_response self file_path pres_id))).

(** [W] with another object store behind the client. *)
Definition with_store (W : Collaborators)
    (upload : Client -> string -> option string -> string -> Outcome unit)
    (presign : Client -> option string -> string -> nat -> Outcome string)
  : Collaborators :=
  {| ppt_create_presentation := ppt_create_presentation W;
     ppt_create_presentation_from_template :=
       ppt_create_presentation_from_template W;
     ppt_open_presentation := ppt_open_presentation W;
     ppt_save_presentation := ppt_save_presentation W;
     ppt_get_presentation_info := ppt_get_presentation_info W;
     ppt_get_template_info := ppt_get_template_info W;
     ppt_set_core_properties := ppt_set_core_properties W;
     os_path_exists := os_path_exists W;
     prs_save := prs_save W;
     boto3_client := boto3_client W;
     upload_fileobj := upload;
     client_generate_presigned_url := presign;
     get_current_presentation_id := get_current_presentation_id W;
     get_template_search_directories := get_template_search_directories W |}.

(** [W] with another client constructor. *)
Definition with_boto3_client (W : Collaborators)
    (ctor : option string -> option string -> string -> Outcome unit)
  : Collaborators :=
  {| ppt_create_presentation := ppt_create_presentation W;
     ppt_create_presentation_from_template :=
       ppt_create_presentation_from_template W;
     ppt_open_presentation := ppt_open_presentation W;
     ppt_save_presentation := ppt_save_presentation W;
     ppt_get_presentation_info := ppt_get_presentation_info W;
     ppt_get_template_info := ppt_get_template_info W;
     ppt_set_core_properties := ppt_set_core_properties W;
     os_path_exists := os_path_exists W;
     prs_save := prs_save W;
     boto3_client := ctor;
     upload_fileobj := upload_fileobj W;
     client_generate_presigned_url := client_generate_presigned_url W;
     get_current_presentation_id := get_current_presentation_id W;
     get_template_search_directories := get_template_search_directories W |}.

(** [W] with another filesystem and other answers of the two callbacks. *)
Definition with_surroundings (W : Collaborators) (exists_ : string -> bool)
    (current : Outcome (option string)) (dirs : Outcome (list string))
  : Collaborators :=
  {| ppt_create_presentation := ppt_create_presentation W;
     ppt_create_presentation_from_template :=
       ppt_create_presentation_from_template W;
     ppt_open_presentation := ppt_open_presentation W;
     ppt_save_presentation := ppt_save_presentation W;
     ppt_get_presentation_info := ppt_get_presentation_info W;
     ppt_get_template_info := ppt_get_template_info W;
     ppt_set_core_properties := ppt_set_core_properties W;
     os_path_exists := exists_;
     prs_save := prs_save W;
     boto3_client := boto3_client W;
     upload_fileobj := upload_fileobj W;
     client_generate_presigned_url := client_generate_presigned_url W;
     get_current_presentation_id := current;
     get_template_search_directories := dirs |}.

(** A state in which [demo_handler] is the cached handler. *)
Definition remote_state : State :=
  {| environ := demo_env; _s3_handler := Some demo_handler;
     presentations := demo_registry; trace := []; next_obj := 1 |}.

(** A state in which a handler with remote mode off is cached. *)
Definition local_state : State :=
  {| environ := local_env; _s3_handler := Some (fst_handler_of local_env);
     presentations := demo_registry; trace := []; next_obj := 1 |}.

Definition demo_client : Client :=
  {| aws_access_key_id := None; aws_secret_access_key := None;
     region_name := "us-east-1" |}.

(** The four settings [S3Handler.__init__] reads first, in its order. *)
Definition config_reads : list Event :=
  [EvGetenv "S3_ENABLED"; EvGetenv "S3_BUCKET_NAME";
   EvGetenv "S3_PREFIX"; EvGetenv "AWS_DEFAULT_REGION"].

(** * Properties *)

(** ** The string operations on concrete inputs *)

Example rstrip_ex1 : PyStr.rstrip_slash "presentations/" = "presentations".
Proof. reflexivity. Qed.
Example rstrip_ex2 : PyStr.rstrip_slash "a//b///" = "a//b".
Proof. reflexivity. Qed.
Example basename_ex1 : PyStr.basename "/tmp/out/report.pptx" = "report.pptx".
Proof. reflexivity. Qed.
Example basename_ex2 : PyStr.basename "a/b/" = EmptyString.
Proof. reflexivity. Qed.
Example lower_ex : PyStr.lower "TrUe" = "true".
Proof. reflexivity. Qed.
Example str_of_nat_ex : PyStr.str_of_nat 12 = "12".
Proof. reflexivity. Qed.
Example join_ex : PyStr.path_join "./templates" "t.pptx" = "./templates/t.pptx".
Proof. reflexivity. Qed.

(** ** Facts about the string operations *)

Lemma app_nil_str (b : string) : EmptyString +:+ b = b.
Proof. reflexivity. Qed.

Lemma app_cons_str (c : ascii) (a b : string) :
  String c a +:+ b = String c (a +:+ b).
Proof. reflexivity. Qed.

(** stdpp keeps [simpl] from unfolding [+:+]; these two equations do it. *)
Ltac str_simpl :=
  simpl; rewrite ?app_nil_str, ?app_cons_str; simpl.
Ltac str_simpl_in H :=
  simpl in H; rewrite ?app_nil_str, ?app_cons_str in H; simpl in H.

Lemma app_empty_r (s : string) : s +:+ EmptyString = s.
Proof. induction s as [|c s IH]; str_simpl; [reflexivity | now rewrite IH]. Qed.

Lemma app_assoc_str (a b c : string) : (a +:+ b) +:+ c = a +:+ (b +:+ c).
Proof. induction a as [|x a IH]; str_simpl; [reflexivity | now rewrite IH]. Qed.

Lemma length_app_str (a b : string) :
  String.length (a +:+ b) = String.length a + String.length b.
Proof. induction a as [|x a IH]; str_simpl; [reflexivity | now rewrite IH]. Qed.

Lemma app_cancel_r (a b s : string) : a +:+ s = b +:+ s -> a = b.
Proof.
  revert b; induction a as [|x a IH]; intros [|y b] H; str_simpl_in H.
  - reflexivity.
  - apply (f_equal String.length) in H; simpl in H.
    rewrite length_app_str in H; lia.
  - apply (f_equal String.length) in H; simpl in H.
    rewrite length_app_str in H; lia.
  - injection H as -> H. f_equal. now apply IH.
Qed.

Lemma endswith_refl (s : string) : PyStr.endswith s s = true.
Proof.
  destruct s; simpl; rewrite ?Ascii.eqb_refl, ?String.eqb_refl; reflexivity.
Qed.

Lemma endswith_app (a suf : string) : PyStr.endswith (a +:+ suf) suf = true.
Proof.
  induction a as [|c a IH]; str_simpl.
  - apply endswith_refl.
  - rewrite IH. apply orb_true_r.
Qed.

Lemma endswith_spec (s suf : string) :
  PyStr.endswith s suf = true <-> exists a, s = a +:+ suf.
Proof.
  split.
  - induction s as [|c s IH]; intros H.
    + destruct suf; [now exists EmptyString|discriminate].
    + change (PyStr.endswith (String c s) suf)
        with (String.eqb (String c s) suf || PyStr.endswith s suf) in H.
      apply orb_true_iff in H as [H | H].
      * apply String.eqb_eq in H. exists EmptyString. now subst.
      * destruct (IH H) as [a ->]. now exists (String c a).
  - intros [a ->]. apply endswith_app.
Qed.

Lemma endswith_app_same (a b s : string) :
  PyStr.endswith (a +:+ s) (b +:+ s) = PyStr.endswith a b.
Proof.
  destruct (PyStr.endswith a b) eqn:E.
  - apply endswith_spec in E as [x ->].
    apply endswith_spec. exists x. apply app_assoc_str.
  - apply not_true_is_false. intros H.
    apply endswith_spec in H as [x H].
    rewrite <- app_assoc_str in H. apply app_cancel_r in H.
    assert (PyStr.endswith a b = true) by (apply endswith_spec; eauto).
    congruence.
Qed.

Lemma endswith_trans (s mid suf : string) :
  PyStr.endswith s mid = true -> PyStr.endswith mid suf = true ->
  PyStr.endswith s suf = true.
Proof.
  intros [a ->]%endswith_spec [b ->]%endswith_spec.
  apply endswith_spec. exists (a +:+ b). symmetry. apply app_assoc_str.
Qed.

Lemma rstrip_slash_cons_nonempty (c : ascii) (r : string) :
  PyStr.rstrip_slash r <> EmptyString ->
  PyStr.rstrip_slash (String c r) = String c (PyStr.rstrip_slash r).
Proof. simpl. destruct (PyStr.rstrip_slash r); congruence. Qed.

Lemma rstrip_slash_idem (p : string) :
  PyStr.rstrip_slash (PyStr.rstrip_slash p) = PyStr.rstrip_slash p.
Proof.
  induction p as [|c r IH]; [reflexivity|].
  simpl. destruct (PyStr.rstrip_slash r) as [|d r'] eqn:E.
  - destruct (Ascii.eqb c PyStr.slash) eqn:Ec; simpl; [reflexivity|].
    now rewrite Ec.
  - rewrite rstrip_slash_cons_nonempty by (rewrite IH; discriminate).
    now rewrite IH.
Qed.

Lemma rstrip_slash_decompose (p : string) :
  exists n, p = PyStr.rstrip_slash p +:+ PyStr.slashes n.
Proof.
  induction p as [|c r [n IH]].
  - now exists 0.
  - simpl. destruct (PyStr.rstrip_slash r) as [|d r'] eqn:E.
    + destruct (Ascii.eqb c PyStr.slash) eqn:Ec.
      * apply Ascii.eqb_eq in Ec as ->. exists (S n).
        str_simpl. now rewrite IH at 1.
      * exists n. str_simpl. now rewrite IH at 1.
    + exists n. str_simpl. now rewrite IH at 1.
Qed.

Lemma endswith_slash_cons (c : ascii) (r : string) :
  r <> EmptyString -> PyStr.endswith (String c r) "/" = PyStr.endswith r "/".
Proof.
  intros Hr. simpl. destruct r as [|d r]; [congruence|].
  destruct (Ascii.eqb c "/"); reflexivity.
Qed.

Lemma rstrip_slash_no_trailing (p : string) :
  PyStr.endswith (PyStr.rstrip_slash p) "/" = false.
Proof.
  induction p as [|c r IH]; [reflexivity|].
  simpl. destruct (PyStr.rstrip_slash r) as [|d r'] eqn:E.
  - destruct (Ascii.eqb c PyStr.slash) eqn:Ec; [reflexivity|].
    unfold PyStr.slash in Ec. simpl. now rewrite Ec.
  - now rewrite endswith_slash_cons.
Qed.

Lemma rstrip_slash_fixed (p : string) :
  PyStr.endswith p "/" = false -> PyStr.rstrip_slash p = p.
Proof.
  induction p as [|c r IH]; [reflexivity|].
  intros H. destruct r as [|d r].
  - simpl in *. unfold PyStr.slash.
    destruct (Ascii.eqb c "/"); [discriminate|reflexivity].
  - rewrite endswith_slash_cons in H by discriminate.
    rewrite rstrip_slash_cons_nonempty; rewrite (IH H);
      [reflexivity|discriminate].
Qed.

Lemma basename_no_slash (p : string) :
  PyStr.has_slash (PyStr.basename p) = false.
Proof.
  induction p as [|c r IH]; [reflexivity|].
  simpl. destruct (PyStr.has_slash r) eqn:E; [exact IH|].
  destruct (Ascii.eqb c PyStr.slash) eqn:Ec; [exact E|].
  simpl. now rewrite Ec, E.
Qed.

Lemma basename_decompose (p : string) :
  exists dir, p = dir +:+ PyStr.basename p /\
              (dir = EmptyString \/ PyStr.endswith dir "/" = true).
Proof.
  induction p as [|c r (dir & IH & Hdir)].
  - exists EmptyString. auto.
  - simpl. destruct (PyStr.has_slash r) eqn:E.
    + exists (String c dir). split; [str_simpl; now rewrite <- IH|].
      right. destruct Hdir as [-> | Hd].
      * rewrite app_nil_str in IH. exfalso.
        pose proof (basename_no_slash r) as Hn. rewrite <- IH in Hn. congruence.
      * simpl. rewrite Hd. apply orb_true_r.
    + destruct (Ascii.eqb c PyStr.slash) eqn:Ec.
      * apply Ascii.eqb_eq in Ec as ->. exists "/". split; [reflexivity|now right].
      * exists EmptyString. auto.
Qed.

(** ** Key construction: the prefix and the extension *)

(** C6: the normalisation of the prefix in key construction,
    [rstrip('/')], is idempotent: normalising a normalised prefix
    changes nothing. *)
Theorem normalize_idempotent (p : string) :
  PyStr.rstrip_slash (PyStr.rstrip_slash p) = PyStr.rstrip_slash p.
Proof. apply rstrip_slash_idem. Qed.

(** The claim of C5 fails on a prefix with two trailing separators:
    ["decks//"] ends with "/", yet normalising it yields ["decks"], not
    ["decks/"], and the key built from it has a single separator. *)
Lemma normalize_strips_one_counterexample :
  PyStr.endswith "decks//" "/" = true /\
  PyStr.rstrip_slash "decks//" = "decks" /\
  PyStr.rstrip_slash "decks//" <> "decks/" /\
  s3_key_of "decks//" "q3.pptx" = "decks/q3.pptx".
Proof. repeat split; try reflexivity. discriminate. Qed.

(** C5, amended: normalising a prefix removes every trailing separator.
    For every prefix [p], [p] is its normal form followed by some number
    [n] of "/" characters, the normal form does not end with "/", and a
    prefix that does not end with "/" is its own normal form. *)
Theorem normalize_strips_all (p : string) :
  (exists n, p = PyStr.rstrip_slash p +:+ PyStr.slashes n) /\
  PyStr.endswith (PyStr.rstrip_slash p) "/" = false /\
  (PyStr.endswith p "/" = true \/ PyStr.rstrip_slash p = p).
Proof.
  split; [apply rstrip_slash_decompose|].
  split; [apply rstrip_slash_no_trailing|].
  destruct (PyStr.endswith p "/") eqn:E; [now left|right].
  now apply rstrip_slash_fixed.
Qed.

Lemma pptx_filename_cases (name : string) :
  (PyStr.endswith name ".pptx" = true /\ pptx_filename name = name) \/
  (PyStr.endswith name ".pptx" = false /\
   pptx_filename name = name +:+ ".pptx").
Proof.
  unfold pptx_filename. destruct (PyStr.endswith name ".pptx"); auto.
Qed.

Lemma pptx_filename_endswith (name : string) :
  PyStr.endswith (pptx_filename name) ".pptx" = true.
Proof.
  destruct (pptx_filename_cases name) as [[H ->] | [_ ->]];
    [exact H | apply endswith_app].
Qed.

Lemma pptx_filename_double (name : string) :
  PyStr.endswith (pptx_filename name) ".pptx.pptx"
  = PyStr.endswith name ".pptx.pptx".
Proof.
  destruct (pptx_filename_cases name) as [[_ ->] | [H ->]]; [reflexivity|].
  change ".pptx.pptx" with (".pptx" +:+ ".pptx").
  rewrite endswith_app_same, H. symmetry.
  apply not_true_is_false. intros H2.
  rewrite (endswith_trans name (".pptx" +:+ ".pptx") ".pptx") in H;
    [discriminate | exact H2 | reflexivity].
Qed.

(** ** Running the handler *)

Lemma add_trace_nil (st : State) : add_trace st [] = st.
Proof. destruct st; unfold add_trace; simpl. now rewrite app_nil_r. Qed.

Lemma add_trace_app (st : State) (a b : list Event) :
  add_trace (add_trace st a) b = add_trace st (a ++ b).
Proof. unfold add_trace; simpl. now rewrite app_assoc. Qed.

Lemma events_since_add_trace (st : State) (evs : list Event) :
  events_since st (add_trace st evs) = evs.
Proof. unfold events_since; simpl. apply drop_app_length. Qed.

Lemma S3Handler_init_disabled (W : Collaborators) (st : State) :
  remote_requested (environ st) = false ->
  exists h st',
    S3Handler_init W st = (Ret h, st') /\ s3_enabled h = false /\
    s3_client h = None /\
    trace st' = (trace st ++ [EvGetenv "S3_ENABLED"; EvGetenv "S3_BUCKET_NAME";
                           EvGetenv "S3_PREFIX"; EvGetenv "AWS_DEFAULT_REGION"])%list.
Proof.
  unfold remote_requested. intros H.
  unfold S3Handler_init, getenv_default, getenv, bind, log, fresh_obj,
    get_state, ret. simpl. rewrite H. 
  eexists _, _. split; [reflexivity|]. simpl. rewrite <- !app_assoc. auto.
Qed.

(** ** Construction of the storage resolver *)

Lemma S3Handler_init_no_bucket (W : Collaborators) (st : State) :
  remote_requested (environ st) = true ->
  falsy_opt (environ st !! "S3_BUCKET_NAME") = true ->
  exists st',
    S3Handler_init W st
    = (Raise (ValueError "S3_ENABLED is true but S3_BUCKET_NAME is not set"), st')
    /\ _s3_handler st' = _s3_handler st.
Proof.
  unfold remote_requested. intros He Hb.
  unfold S3Handler_init, getenv_default, getenv, bind, log, fresh_obj,
    get_state, ret, raise. simpl. rewrite He, Hb.
  eexists. split; reflexivity.
Qed.

Lemma S3Handler_init_result (W : Collaborators) (st : State) (h : S3Handler) :
  fst (S3Handler_init W st) = Ret h ->
  s3_enabled h = remote_requested (environ st) /\
  s3_bucket h = environ st !! "S3_BUCKET_NAME" /\
  s3_prefix h = default "presentations/" (environ st !! "S3_PREFIX") /\
  s3_region h = default "us-east-1" (environ st !! "AWS_DEFAULT_REGION") /\
  (s3_enabled h = true -> falsy_opt (s3_bucket h) = false).
Proof.
  unfold remote_requested.
  unfold S3Handler_init, getenv_default, getenv, bind, log, fresh_obj,
    get_state, ret, raise, try_except, call. simpl.
  destruct (String.eqb _ "true") eqn:He.
  - destruct (falsy_opt (environ st !! "S3_BUCKET_NAME")) eqn:Hb;
      [discriminate|].
    simpl. destruct (boto3_client W _ _ _) as [[]|[]]; simpl;
      try discriminate.
    intros [= <-]; simpl. auto.
  - intros [= <-]; simpl. repeat split; discriminate.
Qed.

(** C3: when the environment enables remote mode and gives no bucket
    ([S3_BUCKET_NAME] unset or empty), constructing the handler raises
    the configuration error [ValueError], whatever the other settings and
    collaborators are, so no handler (in particular no local-mode one)
    comes back; and every handler that is constructed has the mode the
    environment asked for and, when enabled, a non-empty bucket. *)
Theorem S3Handler_init_requires_bucket (W : Collaborators) (st : State) :
  (remote_requested (environ st) = true ->
   falsy_opt (environ st !! "S3_BUCKET_NAME") = true ->
   fst (S3Handler_init W st)
   = Raise (ValueError "S3_ENABLED is true but S3_BUCKET_NAME is not set")) /\
  (forall h, fst (S3Handler_init W st) = Ret h ->
             s3_enabled h = remote_requested (environ st) /\
             bucket_invariant h = true /\
             (s3_enabled h = true ->
              exists b, s3_bucket h = Some b /\ b <> EmptyString)).
Proof.
  split.
  - intros He Hb. destruct (S3Handler_init_no_bucket W st He Hb) as (st' & -> & _).
    reflexivity.
  - intros h Hh. destruct (S3Handler_init_result W st h Hh) as (He & _ & _ & _ & Hb).
    split; [exact He|]. split.
    + unfold bucket_invariant. destruct (s3_enabled h); [|reflexivity].
      simpl. now rewrite Hb.
    + intros Hen. specialize (Hb Hen). destruct (s3_bucket h) as [b|];
        [|discriminate].
      exists b. split; [reflexivity|]. intros ->. discriminate.
Qed.

Lemma S3Handler_init_requires_bucket_witness :
  fst (S3Handler_init demo_world (initial_state no_bucket_env ∅))
  = Raise (ValueError "S3_ENABLED is true but S3_BUCKET_NAME is not set").
Proof.
  apply (proj1 (S3Handler_init_requires_bucket demo_world
                  (initial_state no_bucket_env ∅))); reflexivity.
Defined.

(** ** The module-level handler *)

Lemma get_s3_handler_cached (W : Collaborators) (st : State) (h : S3Handler) :
  _s3_handler st = Some h -> get_s3_handler W st = (Ret h, st).
Proof.
  intros H. unfold get_s3_handler, bind, get_state. now rewrite H.
Qed.

Lemma get_s3_handler_fresh (W : Collaborators) (st : State) :
  _s3_handler st = None ->
  fst (get_s3_handler W st) = fst (S3Handler_init W st) /\
  _s3_handler (snd (get_s3_handler W st))
  = match fst (S3Handler_init W st) with
    | Ret h => Some h
    | Raise _ => None
    end.
Proof.
  intros H. unfold get_s3_handler, bind, get_state. rewrite H.
  destruct (S3Handler_init W st) as [[h|e] st'] eqn:E; simpl; [auto|].
  split; [reflexivity|].
  (* a constructor that raises has not touched the global *)
  revert E.
  unfold S3Handler_init, getenv_default, getenv, bind, log, fresh_obj,
    get_state, ret, raise, try_except, call. simpl.
  repeat match goal with
         | |- context [if ?b then _ else _] => destruct b
         | |- context [match boto3_client ?w ?a ?b ?c with _ => _ end] =>
             destruct (boto3_client w a b c) as [[]|[]]
         end; simpl; intros E; try discriminate; injection E as _ <-; exact H.
Qed.

Lemma get_s3_handler_returns (W : Collaborators) (st st1 : State)
    (h : S3Handler) :
  get_s3_handler W st = (Ret h, st1) -> _s3_handler st1 = Some h.
Proof.
  unfold get_s3_handler, bind, get_state.
  destruct (_s3_handler st) as [h0|] eqn:E.
  - unfold ret. intros [= <- <-]. exact E.
  - destruct (S3Handler_init W st) as [[h1|e] st'];
      unfold set_s3_handler, ret; simpl; intros [= <- <-]; reflexivity.
Qed.

(** The claim of C9 fails when the first construction raises: in a
    process whose environment enables remote mode without a bucket, the
    first call constructs nothing and caches nothing, and the second call
    reads the four settings again; once the environment names a bucket,
    the call after that constructs the handler. *)
Lemma singleton_counterexample :
  let run := get_s3_handler_calls demo_world [no_bucket_env; no_bucket_env]
               (initial_state no_bucket_env ∅) in
  let run' := get_s3_handler_calls demo_world [no_bucket_env; demo_env]
                (initial_state no_bucket_env ∅) in
  fst run
  = [Raise (ValueError "S3_ENABLED is true but S3_BUCKET_NAME is not set");
     Raise (ValueError "S3_ENABLED is true but S3_BUCKET_NAME is not set")] /\
  _s3_handler (snd run) = None /\
  trace (snd run)
  = [EvGetenv "S3_ENABLED"; EvGetenv "S3_BUCKET_NAME"; EvGetenv "S3_PREFIX";
     EvGetenv "AWS_DEFAULT_REGION";
     EvGetenv "S3_ENABLED"; EvGetenv "S3_BUCKET_NAME"; EvGetenv "S3_PREFIX";
     EvGetenv "AWS_DEFAULT_REGION"] /\
  fst run'
  = [Raise (ValueError "S3_ENABLED is true but S3_BUCKET_NAME is not set");
     Ret {| handler_obj := 1; s3_enabled := true;
            s3_bucket := Some "demo-bucket"; s3_prefix := "presentations/";
            s3_region := "us-east-1";
            s3_client := Some {| aws_access_key_id := None;
                                 aws_secret_access_key := None;
                                 region_name := "us-east-1" |} |}].
Proof. cbv zeta. split; [|split; [|split]]; vm_compute; reflexivity. Qed.

Lemma get_s3_handler_fresh_reads (W : Collaborators) (st : State) :
  _s3_handler st = None ->
  exists rest,
    events_since st (snd (get_s3_handler W st)) = (config_reads ++ rest)%list.
Proof.
  intros Hn. unfold get_s3_handler, bind, get_state. rewrite Hn.
  unfold S3Handler_init, getenv_default, getenv, bind, log, fresh_obj,
    get_state, ret, raise, try_except, call, set_s3_handler, events_since.
  simpl.
  destruct (String.eqb _ "true").
  - destruct (falsy_opt (environ st !! "S3_BUCKET_NAME")); simpl.
    + exists []. rewrite <- !app_assoc. simpl. now rewrite drop_app_length.
    + destruct (boto3_client W _ _ _) as [[]|[]]; simpl;
        eexists; rewrite <- !app_assoc; simpl; rewrite drop_app_length;
        reflexivity.
  - simpl. exists []. rewrite <- !app_assoc. simpl. now rewrite drop_app_length.
Qed.

Lemma get_s3_handler_raises (W : Collaborators) (st st1 : State) (e : exn) :
  get_s3_handler W st = (Raise e, st1) ->
  _s3_handler st = None /\ _s3_handler st1 = None.
Proof.
  intros Hrun. destruct (_s3_handler st) as [h0|] eqn:Hn.
  - rewrite (get_s3_handler_cached W st h0 Hn) in Hrun. discriminate.
  - split; [reflexivity|].
    destruct (get_s3_handler_fresh W st Hn) as [Hf Hc].
    rewrite Hrun in Hf, Hc. simpl in Hf, Hc. now rewrite <- Hf in Hc.
Qed.

(** C9, amended: a call of [get_s3_handler] made while nothing is cached
    is the constructor's: it reads the four settings from the environment
    as it then is and returns or raises what [S3Handler.__init__] does.
    Once a call has returned a handler, that handler is what the module
    global holds, and every later call in the process, whatever the
    environment has become by then, returns this same instance and leaves
    the state as it is: no setting is read again and no object is
    constructed.  A call whose construction raises caches nothing: the
    global is still empty afterwards, and the next call, under whatever
    environment, runs the constructor again and reads the four settings
    again. *)
Theorem get_s3_handler_singleton (W : Collaborators) (st : State) :
  (_s3_handler st = None ->
   fst (get_s3_handler W st) = fst (S3Handler_init W st) /\
   exists rest,
     events_since st (snd (get_s3_handler W st))
     = (config_reads ++ rest)%list) /\
  (forall h st1,
      get_s3_handler W st = (Ret h, st1) ->
      (_s3_handler st = None -> fst (S3Handler_init W st) = Ret h) /\
      _s3_handler st1 = Some h /\
      forall envs st2,
        _s3_handler st2 = Some h ->
        fst (get_s3_handler_calls W envs st2) = repeat (Ret h) (length envs) /\
        trace (snd (get_s3_handler_calls W envs st2)) = trace st2 /\
        next_obj (snd (get_s3_handler_calls W envs st2)) = next_obj st2 /\
        _s3_handler (snd (get_s3_handler_calls W envs st2)) = Some h) /\
  (forall e st1,
      get_s3_handler W st = (Raise e, st1) ->
      _s3_handler st = None /\
      _s3_handler st1 = None /\
      forall env,
        fst (get_s3_handler W (set_environ env st1))
        = fst (S3Handler_init W (set_environ env st1)) /\
        exists rest,
          events_since st1 (snd (get_s3_handler W (set_environ env st1)))
          = (config_reads ++ rest)%list).
Proof.
  split; [|split].
  - intros Hn. split.
    + apply (get_s3_handler_fresh W st Hn).
    + now apply get_s3_handler_fresh_reads.
  - intros h st1 Hrun. split; [|split].
    + intros Hn. destruct (get_s3_handler_fresh W st Hn) as [<- _].
      now rewrite Hrun.
    + eapply get_s3_handler_returns; eassumption.
    + induction envs as [|env rest IH]; intros st2 H2; [simpl; auto|].
      simpl. rewrite (get_s3_handler_cached W (set_environ env st2) h H2).
      specialize (IH (set_environ env st2) H2).
      destruct (get_s3_handler_calls W rest (set_environ env st2)) as [rs st3].
      simpl in *. destruct IH as (-> & ? & ? & ?). auto.
  - intros e st1 Hrun.
    destruct (get_s3_handler_raises W st st1 e Hrun) as [Hn Hn1].
    split; [exact Hn|]. split; [exact Hn1|].
    intros env.
    assert (Hn2 : _s3_handler (set_environ env st1) = None) by exact Hn1.
    split.
    + apply (get_s3_handler_fresh W _ Hn2).
    + apply (get_s3_handler_fresh_reads W _ Hn2).
Qed.

Lemma get_s3_handler_singleton_witness :
  let st1 := snd (get_s3_handler demo_world (initial_state demo_env ∅)) in
  let st1' := snd (get_s3_handler demo_world (initial_state no_bucket_env ∅)) in
  fst (get_s3_handler_calls demo_world [no_bucket_env; local_env] st1)
  = [Ret demo_handler; Ret demo_handler] /\
  _s3_handler st1' = None /\
  fst (get_s3_handler demo_world (set_environ demo_env st1'))
  = fst (S3Handler_init demo_world (set_environ demo_env st1')).
Proof.
  intros st1 st1'.
  assert (Hrun : get_s3_handler demo_world (initial_state demo_env ∅)
                 = (Ret demo_handler, st1)) by (vm_compute; reflexivity).
  assert (Hc : _s3_handler st1 = Some demo_handler) by (vm_compute; reflexivity).
  assert (Hbad : get_s3_handler demo_world (initial_state no_bucket_env ∅)
                 = (Raise (ValueError
                             "S3_ENABLED is true but S3_BUCKET_NAME is not set"),
                    st1')) by (vm_compute; reflexivity).
  destruct (get_s3_handler_singleton demo_world (initial_state demo_env ∅))
    as (_ & Hret & _).
  destruct (Hret demo_handler st1 Hrun) as (_ & _ & Hcalls).
  destruct (get_s3_handler_singleton demo_world
              (initial_state no_bucket_env ∅)) as (_ & _ & Hraise).
  destruct (Hraise _ st1' Hbad) as (_ & Hnone & Hnext).
  split; [apply (Hcalls [no_bucket_env; local_env] st1 Hc)|].
  split; [exact Hnone|apply (Hnext demo_env)].
Defined.

(** ** Identifiers generated by the tools *)

Lemma create_presentation_run (W : Collaborators) (id : option string)
    (st : State) (pres : Presentation) :
  ppt_create_presentation W = Ret pres ->
  let new_id := default (auto_id (presentations st)) id in
  exists d st',
    create_presentation W id st = (Ret d, st') /\
    d !! "presentation_id" = Some (VStr new_id) /\
    d !! "error" = None /\ d !! "success" = None /\
    presentations st' = <[new_id := pres]> (presentations st).
Proof.
  intros Hc. unfold create_presentation, call, bind, log. simpl.
  rewrite Hc. destruct id as [i|]; simpl; eexists _, _;
    (split; [reflexivity|]); repeat split; reflexivity.
Qed.

Lemma open_presentation_run (W : Collaborators) (file_path : string)
    (id : option string) (st : State) (pres : Presentation) :
  os_path_exists W file_path = true ->
  ppt_open_presentation W file_path = Ret pres ->
  let new_id := default (auto_id (presentations st)) id in
  exists d st',
    open_presentation W file_path id st = (Ret d, st') /\
    d !! "presentation_id" = Some (VStr new_id) /\
    d !! "error" = None /\ d !! "success" = None /\
    presentations st' = <[new_id := pres]> (presentations st).
Proof.
  intros He Ho. unfold open_presentation. rewrite He. simpl.
  unfold try_except, call, bind, log. simpl.
  rewrite Ho. destruct id as [i|]; simpl; eexists _, _;
    (split; [reflexivity|]); repeat split; reflexivity.
Qed.

(** C10: with [id = None], [create_presentation] and [open_presentation]
    assign "presentation_" followed by the registry size plus one and
    store the document under it; and there is a registry the tools
    themselves produce (one document created under the explicit
    identifier "presentation_2") in which the next generated identifier
    is already taken: the call reports no error, the stored document is
    replaced, and the registry keeps its size. *)
Theorem auto_id_can_replace :
  (forall W st pres,
      ppt_create_presentation W = Ret pres ->
      exists d st',
        create_presentation W None st = (Ret d, st') /\
        d !! "presentation_id"
        = Some (VStr ("presentation_"
                      +:+ PyStr.str_of_nat (size (presentations st) + 1))) /\
        presentations st'
        = <[auto_id (presentations st) := pres]> (presentations st)) /\
  (forall W file_path st pres,
      os_path_exists W file_path = true ->
      ppt_open_presentation W file_path = Ret pres ->
      exists d st',
        open_presentation W file_path None st = (Ret d, st') /\
        d !! "presentation_id"
        = Some (VStr ("presentation_"
                      +:+ PyStr.str_of_nat (size (presentations st) + 1))) /\
        presentations st'
        = <[auto_id (presentations st) := pres]> (presentations st)) /\
  (let st0 := initial_state ∅ ∅ in
   let st1 := snd (create_presentation demo_world (Some "presentation_2") st0) in
   let created := create_presentation other_world None st1 in
   let opened := open_presentation other_world "q3.pptx" None st1 in
   presentations st1 = {[ "presentation_2" := demo_pres ]} /\
   auto_id (presentations st1) = "presentation_2" /\
   (exists d, fst created = Ret d /\
              d !! "presentation_id" = Some (VStr "presentation_2") /\
              d !! "error" = None) /\
   presentations (snd created) = {[ "presentation_2" := other_pres ]} /\
   size (presentations (snd created)) = size (presentations st1) /\
   (exists d, fst opened = Ret d /\
              d !! "presentation_id" = Some (VStr "presentation_2") /\
              d !! "error" = None) /\
   presentations (snd opened) = {[ "presentation_2" := other_pres ]} /\
   size (presentations (snd opened)) = size (presentations st1)).
Proof.
  split; [|split].
  - intros W st pres Hc.
    destruct (create_presentation_run W None st pres Hc)
      as (d & st' & Hr & Hid & _ & _ & Hreg).
    exists d, st'. auto.
  - intros W file_path st pres He Ho.
    destruct (open_presentation_run W file_path None st pres He Ho)
      as (d & st' & Hr & Hid & _ & _ & Hreg).
    exists d, st'. auto.
  - cbv zeta. repeat apply conj; try (vm_compute; reflexivity).
    + eexists. split; [reflexivity|]. split; vm_compute; reflexivity.
    + eexists. split; [reflexivity|]. split; vm_compute; reflexivity.
Qed.

(** ** Failures of collaborators at the tool boundary *)

(** C2 at [create_presentation]: the call of the document library is
    outside any [try], so an exception it raises leaves the tool as it
    is, with no result dictionary. *)
Theorem create_presentation_propagates (W : Collaborators)
    (id : option string) (st : State) (e : exn) :
  ppt_create_presentation W = Raise e ->
  fst (create_presentation W id st) = Raise e.
Proof.
  intros H. unfold create_presentation, call, bind, log. simpl.
  now rewrite H.
Qed.

Lemma create_presentation_propagates_witness :
  fst (create_presentation broken_library_world None (initial_state ∅ ∅))
  = Raise (OtherError "Package not found").
Proof.
  apply (create_presentation_propagates broken_library_world None
           (initial_state ∅ ∅) (OtherError "Package not found")).
  reflexivity.
Defined.

(** The sibling tools catch the same failure of the document library and
    return an [error] dictionary. *)
Lemma create_presentation_from_template_catches (W : Collaborators)
    (template_path : string) (id : option string) (st : State) (e : exn) :
  os_path_exists W template_path = true ->
  ppt_create_presentation_from_template W template_path = Raise e ->
  fst (create_presentation_from_template W template_path id st)
  = Ret (dict_of [("error",
                   VStr ("Failed to create presentation from template: "
                         +:+ exn_str e))]).
Proof.
  intros He Hc. unfold create_presentation_from_template. rewrite He. simpl.
  unfold try_except, call, bind, log, ret. simpl. now rewrite Hc.
Qed.

Lemma open_presentation_catches (W : Collaborators)
    (file_path : string) (id : option string) (st : State) (e : exn) :
  os_path_exists W file_path = true ->
  ppt_open_presentation W file_path = Raise e ->
  fst (open_presentation W file_path id st)
  = Ret (dict_of [("error",
                   VStr ("Failed to open presentation: " +:+ exn_str e))]).
Proof.
  intros He Hc. unfold open_presentation. rewrite He. simpl.
  unfold try_except, call, bind, log, ret. simpl. now rewrite Hc.
Qed.

Lemma get_storage_mode_returns (W : Collaborators) (st : State) :
  exists d, fst (get_storage_mode W st) = Ret d /\
            is_Some (d !! "success").
Proof.
  unfold get_storage_mode, try_except, bind.
  destruct (get_s3_handler W st) as [[h|e] st'].
  - destruct (s3_enabled h); eexists; split; try reflexivity; eexists; reflexivity.
  - eexists; split; [reflexivity|]. eexists; reflexivity.
Qed.

(** ** Running a save *)

Lemma upload_presentation_run (W : Collaborators) (h : S3Handler)
    (prs : Presentation) (name : string) (st : State) :
  s3_enabled h = true ->
  upload_presentation W h prs name st
  = match prs_save W prs with
    | Raise e =>
        (on_client_error e (upload_failure e), add_trace st [EvSerialize prs])
    | Ret buffer =>
        let key := s3_key_of (s3_prefix h) (pptx_filename name) in
        match s3_client h with
        | None =>
            (Raise (AttributeError
                      "'NoneType' object has no attribute 'upload_fileobj'"),
             add_trace st [EvSerialize prs])
        | Some c =>
            (match upload_fileobj W c buffer (s3_bucket h) key with
             | Ret _ => Ret (upload_result h (pptx_filename name))
             | Raise e => on_client_error e (upload_failure e)
             end,
             add_trace st [EvSerialize prs;
                           EvUploadFileobj (s3_bucket h) key pptx_content_type])
        end
    end.
Proof.
  intros He. unfold upload_presentation. rewrite He. simpl.
  unfold try_except, call, bind, log, the_client, ret, raise. simpl.
  destruct (prs_save W prs) as [buffer|e]; simpl.
  - destruct (s3_client h) as [c|]; simpl; [|reflexivity].
    unfold add_trace; simpl. rewrite <- app_assoc. simpl.
    destruct (upload_fileobj W c buffer _ _) as [[]|e]; simpl;
      [reflexivity|].
    destruct e; reflexivity.
  - destruct e; reflexivity.
Qed.

Lemma generate_presigned_url_run (W : Collaborators) (h : S3Handler)
    (key : string) (expiration : nat) (st : State) :
  s3_enabled h = true ->
  generate_presigned_url W h key expiration st
  = match s3_client h with
    | None =>
        (Raise (AttributeError
           "'NoneType' object has no attribute 'generate_presigned_url'"), st)
    | Some c =>
        (match client_generate_presigned_url W c (s3_bucket h) key expiration
         with
         | Ret url => Ret (Some url)
         | Raise e => on_client_error e None
         end,
         add_trace st [EvPresign (s3_bucket h) key expiration])
    end.
Proof.
  intros He. unfold generate_presigned_url. rewrite He. simpl.
  unfold try_except, call, bind, log, the_client, ret, raise. simpl.
  destruct (s3_client h) as [c|]; simpl; [|reflexivity].
  destruct (client_generate_presigned_url W c _ _ _) as [url|e]; simpl;
    [reflexivity|].
  destruct e; reflexivity.
Qed.

Lemma upload_result_lookup (h : S3Handler) (filename : string) :
  let d := upload_result h filename in
  let key := s3_key_of (s3_prefix h) filename in
  d !! "success" = Some (VBool true) /\
  d !! "key" = Some (VStr key) /\
  d !! "s3_url" = Some (VStr (s3_url_of (s3_bucket h) key)) /\
  d !! "https_url"
  = Some (VStr (https_url_of (s3_bucket h) (s3_region h) key)) /\
  d !! "bucket" = Some (val_of_opt (s3_bucket h)) /\
  d !! "filename" = Some (VStr filename).
Proof. repeat split; reflexivity. Qed.

Lemma upload_failure_lookup (e : exn) :
  upload_failure e !! "success" = Some (VBool false).
Proof. reflexivity. Qed.

(** A successful upload returns the dictionary [upload_result]. *)
Lemma upload_presentation_success (W : Collaborators) (h : S3Handler)
    (prs : Presentation) (name : string) (st : State) (d : Dict) :
  s3_enabled h = true ->
  fst (upload_presentation W h prs name st) = Ret d ->
  d !! "success" = Some (VBool true) ->
  d = upload_result h (pptx_filename name) /\
  snd (upload_presentation W h prs name st)
  = add_trace st [EvSerialize prs;
                  EvUploadFileobj (s3_bucket h)
                    (s3_key_of (s3_prefix h) (pptx_filename name))
                    pptx_content_type].
Proof.
  intros He. rewrite (upload_presentation_run W h prs name st He).
  destruct (prs_save W prs) as [buffer|e]; simpl.
  - destruct (s3_client h) as [c|]; simpl; [|discriminate].
    destruct (upload_fileobj W c buffer _ _) as [[]|e]; simpl.
    + intros [= <-] _. auto.
    + destruct e; simpl; try discriminate.
      intros [= <-]. rewrite upload_failure_lookup. discriminate.
  - destruct e; simpl; try discriminate.
    intros [= <-]. rewrite upload_failure_lookup. discriminate.
Qed.

Lemma save_to_s3_uploaded (W : Collaborators) (h : S3Handler)
    (pres : Presentation) (file_path pres_id : string) (st : State)
    (result : Dict) :
  s3_enabled h = true ->
  fst (upload_presentation W h pres (PyStr.basename file_path) st)
  = Ret result ->
  result !! "success" = Some (VBool true) ->
  let st2 := snd (upload_presentation W h pres (PyStr.basename file_path) st) in
  save_to_s3 W h pres file_path pres_id st
  = match generate_presigned_url W h (remote_key h file_path) 3600 st2 with
    | (Raise e, st3) => (Raise e, st3)
    | (Ret presigned_url, st3) =>
        (Ret (if falsy_opt presigned_url then s3_response h file_path pres_id
              else
                let url := default EmptyString presigned_url in
                <["message" :=
                    VStr (("Presentation saved to S3: "
                           +:+ s3_url_of (s3_bucket h) (remote_key h file_path))
                          +:+ newline +:+ newline
                          +:+ "Temporary download URL (expires in 1 hour):"
                          +:+ newline +:+ url)]>
                  (<["presigned_url_expires" := VStr "1 hour"]>
                     (<["presigned_url" := VStr url]>
                        (s3_response h file_path pres_id)))),
         st3)
    end.
Proof.
  intros He Hu Hs st2.
  destruct (upload_presentation_success W h pres _ st result He Hu Hs)
    as [-> Hst].
  unfold save_to_s3, bind. subst st2.
  destruct (upload_presentation W h pres (PyStr.basename file_path) st)
    as [[d|e] st2]; simpl in Hu, Hst |- *; [|discriminate].
  injection Hu as ->.
  unfold getitem, as_str.
  destruct (upload_result_lookup h (pptx_filename (PyStr.basename file_path)))
    as (-> & -> & -> & -> & -> & ->). simpl.
  fold (remote_key h file_path).
  destruct (generate_presigned_url W h (remote_key h file_path) 3600 st2)
    as [[url|e] st3]; [|reflexivity].
  unfold ret. destruct (falsy_opt url); reflexivity.
Qed.

Lemma save_presentation_dispatch (W : Collaborators) (file_path : string)
    (presentation_id : option string) (st st1 : State) (pid : string)
    (pres : Presentation) (h : S3Handler) :
  requested_id W presentation_id = Ret (Some pid) ->
  presentations st !! pid = Some pres ->
  get_s3_handler W st = (Ret h, st1) ->
  save_presentation W file_path presentation_id st
  = try_except (if s3_enabled h then save_to_s3 W h pres file_path pid
                else save_to_local W pres file_path pid) save_except st1.
Proof.
  intros Hid Hp Hh.
  unfold save_presentation, resolve_presentation_id, lift, bind, get_state.
  rewrite Hid. simpl. rewrite Hp. unfold try_except at 1. unfold bind.
  rewrite Hh. reflexivity.
Qed.

Lemma s3_response_lookup (h : S3Handler) (file_path pres_id : string) :
  let d := s3_response h file_path pres_id in
  let key := remote_key h file_path in
  d !! "success" = Some (VBool true) /\
  d !! "key" = Some (VStr key) /\
  d !! "filename" = Some (VStr (pptx_filename (PyStr.basename file_path))) /\
  d !! "s3_url" = Some (VStr (s3_url_of (s3_bucket h) key)) /\
  d !! "https_url"
  = Some (VStr (https_url_of (s3_bucket h) (s3_region h) key)) /\
  d !! "bucket" = Some (val_of_opt (s3_bucket h)) /\
  d !! "presigned_url" = None /\
  d !! "presigned_url_expires" = None.
Proof. repeat split; reflexivity. Qed.

Lemma s3_response_signed_lookup (h : S3Handler) (file_path pres_id : string)
    (message url : string) :
  let d := <["message" := VStr message]>
             (<["presigned_url_expires" := VStr "1 hour"]>
                (<["presigned_url" := VStr url]>
                   (s3_response h file_path pres_id))) in
  let key := remote_key h file_path in
  d !! "success" = Some (VBool true) /\
  d !! "key" = Some (VStr key) /\
  d !! "filename" = Some (VStr (pptx_filename (PyStr.basename file_path))) /\
  d !! "s3_url" = Some (VStr (s3_url_of (s3_bucket h) key)) /\
  d !! "https_url"
  = Some (VStr (https_url_of (s3_bucket h) (s3_region h) key)) /\
  d !! "bucket" = Some (val_of_opt (s3_bucket h)) /\
  d !! "presigned_url" = Some (VStr url).
Proof. repeat split; reflexivity. Qed.

(** Every way the remote branch can go: it ends in a dictionary, its
    outward calls are an initial part of serialise, upload, sign, and the
    dictionary either reports failure or addresses the stored object. *)
Lemma save_to_s3_cases (W : Collaborators) (h : S3Handler)
    (pres : Presentation) (file_path pid : string) (st : State) :
  s3_enabled h = true ->
  exists d evs,
    try_except (save_to_s3 W h pres file_path pid) save_except st
    = (Ret d, add_trace st evs) /\
    evs `prefix_of` remote_save_calls h pres file_path /\
    (d !! "success" = Some (VBool false) \/
     (d !! "success" = Some (VBool true) /\ addressed h file_path d)) /\
    (forall buffer c url,
        prs_save W pres = Ret buffer ->
        s3_client h = Some c ->
        upload_fileobj W c buffer (s3_bucket h) (remote_key h file_path)
        = Ret tt ->
        client_generate_presigned_url W c (s3_bucket h)
          (remote_key h file_path) 3600 = Ret url ->
        d !! "success" = Some (VBool true) /\
        evs = remote_save_calls h pres file_path).
Proof.
  intros He.
  pose proof (upload_presentation_run W h pres (PyStr.basename file_path) st He)
    as Hrun.
  fold (remote_key h file_path) in Hrun.
  destruct (prs_save W pres) as [buffer|e] eqn:Ep.
  2:{ (* serialisation raised *)
    exists (match e with
            | ClientError _ =>
                dict_of [("success", VBool false); ("storage_type", VStr "s3");
                         ("error", VStr ("Failed to upload to S3: " +:+ exn_str e))]
            | ValueError _ =>
                dict_of [("success", VBool false);
                         ("error",
                          VStr ("Configuration error: " +:+ exn_str e
                                +:+ ". Please check your S3 environment variables."))]
            | _ =>
                dict_of [("success", VBool false);
                         ("error",
                          VStr ("Failed to save presentation: " +:+ exn_str e))]
            end), [EvSerialize pres].
    split; [|split; [|split]].
    - unfold try_except, save_to_s3, bind. rewrite Hrun.
      destruct e; reflexivity.
    - eexists; reflexivity.
    - left. destruct e; reflexivity.
    - intros; discriminate. }
  simpl in Hrun. destruct (s3_client h) as [c|] eqn:Ec.
  2:{ eexists _, [EvSerialize pres].
    split; [|split; [|split]].
    - unfold try_except, save_to_s3, bind. rewrite Hrun. reflexivity.
    - eexists; reflexivity.
    - left. reflexivity.
    - intros; discriminate. }
  destruct (upload_fileobj W c buffer (s3_bucket h) (remote_key h file_path))
    as [[]|e] eqn:Eu.
  2:{ (* the upload raised *)
    exists (match e with
            | ClientError _ =>
                dict_of [("success", VBool false); ("storage_type", VStr "s3");
                         ("error", VStr ("Failed to upload to S3: " +:+ exn_str e))]
            | ValueError _ =>
                dict_of [("success", VBool false);
                         ("error",
                          VStr ("Configuration error: " +:+ exn_str e
                                +:+ ". Please check your S3 environment variables."))]
            | _ =>
                dict_of [("success", VBool false);
                         ("error",
                          VStr ("Failed to save presentation: " +:+ exn_str e))]
            end), [EvSerialize pres;
                   EvUploadFileobj (s3_bucket h) (remote_key h file_path)
                     pptx_content_type].
    split; [|split; [|split]].
    - unfold try_except, save_to_s3, bind. rewrite Hrun.
      destruct e; reflexivity.
    - eexists [_]; reflexivity.
    - left. destruct e; reflexivity.
    - intros b' c' url [= <-] [= <-]. rewrite Eu. discriminate. }
  (* the upload went through *)
  assert (Hup : fst (upload_presentation W h pres (PyStr.basename file_path) st)
                = Ret (upload_result h (pptx_filename (PyStr.basename file_path))))
    by (now rewrite Hrun).
  pose proof (save_to_s3_uploaded W h pres file_path pid st _ He Hup
                (proj1 (upload_result_lookup h _))) as Hsave.
  cbv zeta in Hsave. rewrite Hrun in Hsave. simpl in Hsave.
  rewrite (generate_presigned_url_run W h _ 3600 _ He), Ec in Hsave.
  rewrite add_trace_app in Hsave. simpl in Hsave.
  unfold try_except. rewrite Hsave. clear Hsave.
  destruct (client_generate_presigned_url W c (s3_bucket h)
              (remote_key h file_path) 3600) as [url|e] eqn:Eg.
  - eexists _, _. split; [reflexivity|]. split; [reflexivity|].
    split.
    + right. destruct (falsy_opt (Some url)).
      * destruct (s3_response_lookup h file_path pid)
          as (? & ? & ? & ? & ? & ? & _). repeat split; assumption.
      * destruct (s3_response_signed_lookup h file_path pid
                    (("Presentation saved to S3: "
                      +:+ s3_url_of (s3_bucket h) (remote_key h file_path))
                     +:+ newline +:+ newline
                     +:+ "Temporary download URL (expires in 1 hour):"
                     +:+ newline +:+ default EmptyString (Some url))
                    (default EmptyString (Some url)))
          as (? & ? & ? & ? & ? & ? & _). repeat split; assumption.
    + intros _ _ _ _ _ _ _. split; [|reflexivity].
      destruct (falsy_opt (Some url)); reflexivity.
  - exists (match e with
            | ClientError _ => s3_response h file_path pid
            | ValueError _ =>
                dict_of [("success", VBool false);
                         ("error",
                          VStr ("Configuration error: " +:+ exn_str e
                                +:+ ". Please check your S3 environment variables."))]
            | _ =>
                dict_of [("success", VBool false);
                         ("error",
                          VStr ("Failed to save presentation: " +:+ exn_str e))]
            end), (remote_save_calls h pres file_path).
    split; [|split; [|split]].
    + destruct e; reflexivity.
    + reflexivity.
    + destruct e; try (left; reflexivity).
      right. destruct (s3_response_lookup h file_path pid)
        as (? & ? & ? & ? & ? & ? & _). repeat split; assumption.
    + intros b' c' url [= <-] [= <-] _ Hg. rewrite Eg in Hg. discriminate.
Qed.

Lemma events_since_app (st st' : State) (evs : list Event) :
  trace st' = (trace st ++ evs)%list -> events_since st st' = evs.
Proof. intros H. unfold events_since. rewrite H. apply drop_app_length. Qed.

Lemma get_s3_handler_events (W : Collaborators) (st : State) :
  exists evs,
    trace (snd (get_s3_handler W st)) = (trace st ++ evs)%list /\
    forallb is_config_event evs = true /\
    (forall h, fst (get_s3_handler W st) = Ret h -> s3_enabled h = false ->
               forallb is_getenv evs = true).
Proof.
  unfold get_s3_handler, bind, get_state.
  destruct (_s3_handler st) as [h0|].
  - exists []. simpl. rewrite app_nil_r. auto.
  - unfold S3Handler_init, getenv_default, getenv, bind, log, fresh_obj,
      get_state, ret, raise, try_except, call, set_s3_handler. simpl.
    destruct (String.eqb _ "true") eqn:He.
    + destruct (falsy_opt (environ st !! "S3_BUCKET_NAME")) eqn:Hb; simpl.
      * eexists. rewrite <- !app_assoc. simpl. split; [reflexivity|].
        split; [reflexivity|]. discriminate.
      * destruct (boto3_client W _ _ _) as [[]|[]]; simpl;
          eexists; rewrite <- !app_assoc; simpl;
          (split; [reflexivity|]); (split; [reflexivity|]);
          try discriminate; intros h [= <-]; simpl; discriminate.
    + simpl. eexists. rewrite <- !app_assoc. simpl. split; [reflexivity|].
      split; reflexivity.
Qed.

Lemma config_events_no_local (evs : list Event) :
  forallb is_config_event evs = true ->
  Forall (fun ev => is_local_write ev = false) evs /\ uploads evs = [].
Proof.
  induction evs as [|ev evs IH]; simpl; [auto|].
  intros [Hev Hrest]%andb_true_iff. destruct (IH Hrest) as [IH1 IH2].
  destruct ev; try discriminate; simpl; auto.
Qed.

Lemma getenv_events_quiet (evs : list Event) :
  forallb is_getenv evs = true ->
  Forall (fun ev => is_remote_event ev = false) evs /\ local_saves evs = [].
Proof.
  induction evs as [|ev evs IH]; simpl; [auto|].
  intros [Hev Hrest]%andb_true_iff. destruct (IH Hrest) as [IH1 IH2].
  destruct ev; try discriminate; simpl; auto.
Qed.

Lemma remote_save_prefix (h : S3Handler) (pres : Presentation)
    (file_path : string) (evs : list Event) :
  evs `prefix_of` remote_save_calls h pres file_path ->
  Forall (fun ev => is_local_write ev = false) evs /\
  Forall (fun bk => bk = (s3_bucket h, remote_key h file_path)) (uploads evs).
Proof.
  intros [k Hk].
  assert (H1 : Forall (fun ev => is_local_write ev = false)
                 (remote_save_calls h pres file_path))
    by (repeat constructor).
  assert (H2 : Forall (fun bk => bk = (s3_bucket h, remote_key h file_path))
                 (uploads (remote_save_calls h pres file_path)))
    by (repeat constructor).
  rewrite Hk in H1, H2. unfold uploads in H2. rewrite omap_app in H2.
  apply Forall_app in H1 as [H1 _]. apply Forall_app in H2 as [H2 _].
  auto.
Qed.

Lemma try_except_bind {A B} (m : M A) (k : A -> M B)
    (handler : exn -> option (M B)) (st : State) :
  try_except (bind m k) handler st
  = match m st with
    | (Ret a, st1) => try_except (k a) handler st1
    | (Raise e, st1) =>
        match handler e with
        | Some h => h st1
        | None => (Raise e, st1)
        end
    end.
Proof. unfold try_except, bind. destruct (m st) as [[a|e] st1]; reflexivity. Qed.

(** Once the identifier is resolved, [save_presentation] ends in a
    dictionary with a [success] field, whatever the collaborators do. *)
Lemma save_presentation_returns (W : Collaborators) (file_path : string)
    (presentation_id pres_id : option string) (st : State) :
  requested_id W presentation_id = Ret pres_id ->
  exists d, fst (save_presentation W file_path presentation_id st) = Ret d /\
            is_Some (d !! "success").
Proof.
  intros Hid.
  unfold save_presentation, resolve_presentation_id, lift.
  unfold bind at 1. rewrite Hid. unfold bind at 1, get_state.
  destruct (find_presentation (presentations st) pres_id) as [[i pres]|].
  - rewrite try_except_bind.
    destruct (get_s3_handler W st) as [[h|e] st1].
    + destruct (s3_enabled h) eqn:He.
      * destruct (save_to_s3_cases W h pres file_path i st1 He)
          as (d & evs & -> & _ & Hres & _).
        exists d. split; [reflexivity|].
        destruct Hres as [-> | [-> _]]; eexists; reflexivity.
      * unfold try_except, save_to_local, call, bind, log. simpl.
        destruct (ppt_save_presentation W pres file_path) as [saved|e].
        -- eexists. split; [reflexivity|]. eexists; reflexivity.
        -- destruct e; eexists; (split; [reflexivity|]); eexists; reflexivity.
    + destruct e; eexists; (split; [reflexivity|]); eexists; reflexivity.
  - eexists. split; [reflexivity|]. eexists; reflexivity.
Qed.

(** ** Remote mode *)

(** C1: a save through an enabled handler with bucket [bucket] makes no
    local write, whatever the collaborators do; every upload it makes goes
    to that bucket under the key [normalize(prefix) + "/" + filename],
    where [normalize] is [rstrip('/')] and [filename] is the base name of
    the path given with ".pptx" ensured; the base name is what follows
    the last "/" of the path: it holds no "/", and the path is the base
    name after a directory part that is empty or ends with "/"; the call
    always
    ends in a dictionary, which either reports failure or carries this
    key, this filename, the URI "s3://{bucket}/{key}" and the URL
    "https://{bucket}.s3.{region}.amazonaws.com/{key}"; and when the
    document serialises, the upload is accepted and a URL is signed, it
    reports success after exactly one upload, to that key. *)
Theorem remote_save_addressing (W : Collaborators) (file_path : string)
    (presentation_id : option string) (st st1 : State) (pid : string)
    (pres : Presentation) (h : S3Handler) (bucket : string) :
  requested_id W presentation_id = Ret (Some pid) ->
  presentations st !! pid = Some pres ->
  get_s3_handler W st = (Ret h, st1) ->
  s3_enabled h = true ->
  s3_bucket h = Some bucket ->
  let filename := pptx_filename (PyStr.basename file_path) in
  let key := PyStr.rstrip_slash (s3_prefix h) +:+ "/" +:+ filename in
  let run := save_presentation W file_path presentation_id st in
  let events := events_since st (snd run) in
  PyStr.has_slash (PyStr.basename file_path) = false /\
  (exists dir,
      file_path = dir +:+ PyStr.basename file_path /\
      (dir = EmptyString \/ PyStr.endswith dir "/" = true)) /\
  PyStr.endswith filename ".pptx" = true /\
  Forall (fun ev => is_local_write ev = false) events /\
  Forall (fun bk => bk = (Some bucket, key)) (uploads events) /\
  exists d,
    fst run = Ret d /\
    (d !! "success" = Some (VBool false) \/
     (d !! "success" = Some (VBool true) /\
      d !! "key" = Some (VStr key) /\
      d !! "filename" = Some (VStr filename) /\
      d !! "bucket" = Some (VStr bucket) /\
      d !! "s3_url" = Some (VStr ("s3://" +:+ bucket +:+ "/" +:+ key)) /\
      d !! "https_url"
      = Some (VStr ("https://" +:+ bucket +:+ ".s3." +:+ s3_region h
                    +:+ ".amazonaws.com/" +:+ key)))) /\
    (forall buffer c url,
        prs_save W pres = Ret buffer ->
        s3_client h = Some c ->
        upload_fileobj W c buffer (Some bucket) key = Ret tt ->
        client_generate_presigned_url W c (Some bucket) key 3600 = Ret url ->
        d !! "success" = Some (VBool true) /\
        uploads events = [(Some bucket, key)]).
Proof.
  intros Hid Hp Hh He Hb filename key run events.
  split; [apply basename_no_slash|]. split; [apply basename_decompose|].
  split; [apply pptx_filename_endswith|].
  subst run events.
  rewrite (save_presentation_dispatch W file_path presentation_id st st1 pid
             pres h Hid Hp Hh), He.
  destruct (save_to_s3_cases W h pres file_path pid st1 He)
    as (d & evs & -> & Hpre & Hres & Hok).
  destruct (get_s3_handler_events W st) as (evs0 & Ht & Hcfg & _).
  rewrite Hh in Ht. simpl in Ht.
  assert (Hev : events_since st (add_trace st1 evs) = (evs0 ++ evs)%list).
  { apply events_since_app. simpl. rewrite Ht. now rewrite app_assoc. }
  simpl. rewrite Hev.
  destruct (config_events_no_local evs0 Hcfg) as [Hl0 Hu0].
  destruct (remote_save_prefix h pres file_path evs Hpre) as [Hl Hu].
  unfold remote_key, s3_key_of in Hu. rewrite Hb in Hu. fold filename key in Hu.
  split; [apply Forall_app; auto|].
  split.
  { unfold uploads in *. rewrite omap_app, Hu0. exact Hu. }
  exists d. split; [reflexivity|]. split.
  - destruct Hres as [Hf | [Hs Ha]]; [now left|right].
    unfold addressed, remote_key, s3_key_of, s3_url_of, https_url_of in Ha.
    rewrite Hb in Ha. simpl in Ha. fold filename key in Ha.
    destruct Ha as (? & ? & ? & ? & ?). auto 10.
  - intros buffer c url H1 H2 H3 H4.
    unfold remote_key, s3_key_of in Hok. rewrite Hb in Hok.
    destruct (Hok buffer c url H1 H2 H3 H4) as [Hs ->].
    split; [exact Hs|].
    unfold uploads in *. rewrite omap_app, Hu0. simpl.
    unfold remote_key, s3_key_of. now rewrite Hb.
Qed.

Lemma remote_save_addressing_witness :
  let st0 := initial_state demo_env demo_registry in
  let run := save_presentation demo_world "/tmp/out/report" (Some "deck") st0 in
  (exists dir,
      "/tmp/out/report" = dir +:+ PyStr.basename "/tmp/out/report" /\
      (dir = EmptyString \/ PyStr.endswith dir "/" = true)) /\
  Forall (fun ev => is_local_write ev = false) (events_since st0 (snd run)) /\
  exists d,
    fst run = Ret d /\
    d !! "success" = Some (VBool true) /\
    d !! "filename" = Some (VStr "report.pptx") /\
    d !! "key" = Some (VStr "presentations/report.pptx") /\
    d !! "s3_url" = Some (VStr "s3://demo-bucket/presentations/report.pptx").
Proof.
  intros st0 run.
  assert (Hp : presentations st0 !! "deck" = Some demo_pres)
    by (vm_compute; reflexivity).
  assert (Hh : get_s3_handler demo_world st0
               = (Ret demo_handler, snd (get_s3_handler demo_world st0)))
    by (vm_compute; reflexivity).
  destruct (remote_save_addressing demo_world "/tmp/out/report" (Some "deck")
              st0 _ "deck" demo_pres demo_handler "demo-bucket"
              eq_refl Hp Hh eq_refl eq_refl)
    as (_ & Hdir & _ & Hlocal & _ & d & Hd & Hres & Hok).
  split; [exact Hdir|]. split; [exact Hlocal|].
  exists d. split; [exact Hd|].
  destruct (Hok "PK" {| aws_access_key_id := None;
                        aws_secret_access_key := None;
                        region_name := "us-east-1" |}
              "https://signed.example/presentations/report.pptx"
              eq_refl eq_refl eq_refl eq_refl) as [Hs _].
  destruct Hres as [Hf | (_ & Hk & Hn & _ & Hu & _)]; [congruence|].
  split; [exact Hs|]. split; [exact Hn|]. split; [exact Hk|exact Hu].
Defined.

(** C7: in a save through an enabled handler whose upload succeeded, a
    signed-URL derivation that returns no URL ([None], or an empty
    string) leaves the result a success: [success] is true, the bucket,
    key, filename and both URLs of the upload result are all present and
    unchanged, and [presigned_url] and [presigned_url_expires] are
    absent. *)
Theorem presign_failure_keeps_success (W : Collaborators)
    (file_path : string) (presentation_id : option string) (st st1 : State)
    (pid : string) (pres : Presentation) (h : S3Handler) (result : Dict)
    (presigned_url : option string) :
  requested_id W presentation_id = Ret (Some pid) ->
  presentations st !! pid = Some pres ->
  get_s3_handler W st = (Ret h, st1) ->
  s3_enabled h = true ->
  fst (upload_presentation W h pres (PyStr.basename file_path) st1)
  = Ret result ->
  result !! "success" = Some (VBool true) ->
  fst (generate_presigned_url W h (remote_key h file_path) 3600
         (snd (upload_presentation W h pres (PyStr.basename file_path) st1)))
  = Ret presigned_url ->
  falsy_opt presigned_url = true ->
  exists d,
    fst (save_presentation W file_path presentation_id st) = Ret d /\
    d !! "success" = Some (VBool true) /\
    d !! "storage_type" = Some (VStr "s3") /\
    d !! "presigned_url" = None /\
    d !! "presigned_url_expires" = None /\
    Forall (fun k => is_Some (d !! k) /\ d !! k = result !! k)
           ["bucket"; "key"; "filename"; "s3_url"; "https_url"].
Proof.
  intros Hid Hp Hh He Hu Hs Hg Hf.
  rewrite (save_presentation_dispatch W file_path presentation_id st st1 pid
             pres h Hid Hp Hh), He.
  unfold try_except.
  rewrite (save_to_s3_uploaded W h pres file_path pid st1 result He Hu Hs).
  destruct (upload_presentation_success W h pres _ st1 result He Hu Hs)
    as [-> _].
  destruct (generate_presigned_url W h (remote_key h file_path) 3600 _)
    as [[url|e] st3]; simpl in Hg; [|discriminate].
  injection Hg as ->. rewrite Hf.
  exists (s3_response h file_path pid). split; [reflexivity|].
  repeat split; try reflexivity;
    repeat constructor; try (eexists; reflexivity); reflexivity.
Qed.

Lemma presign_failure_keeps_success_witness :
  let st0 := initial_state demo_env demo_registry in
  exists d,
    fst (save_presentation no_presign_world "out/report" None st0) = Ret d /\
    d !! "success" = Some (VBool true) /\
    d !! "presigned_url" = None.
Proof.
  intros st0.
  assert (Hp : presentations st0 !! "deck" = Some demo_pres)
    by (vm_compute; reflexivity).
  assert (Hh : get_s3_handler no_presign_world st0
               = (Ret demo_handler, snd (get_s3_handler no_presign_world st0)))
    by (vm_compute; reflexivity).
  assert (Hu : fst (upload_presentation no_presign_world demo_handler demo_pres
                      (PyStr.basename "out/report")
                      (snd (get_s3_handler no_presign_world st0)))
               = Ret (upload_result demo_handler "report.pptx"))
    by (vm_compute; reflexivity).
  assert (Hs : upload_result demo_handler "report.pptx" !! "success"
               = Some (VBool true)) by (vm_compute; reflexivity).
  assert (Hg : fst (generate_presigned_url no_presign_world demo_handler
                      (remote_key demo_handler "out/report") 3600
                      (snd (upload_presentation no_presign_world demo_handler
                              demo_pres (PyStr.basename "out/report")
                              (snd (get_s3_handler no_presign_world st0)))))
               = Ret None) by (vm_compute; reflexivity).
  destruct (presign_failure_keeps_success no_presign_world "out/report" None
              st0 _ "deck" demo_pres demo_handler _ None
              eq_refl Hp Hh eq_refl Hu Hs Hg eq_refl)
    as (d & Hd & Hok & _ & Hno & _).
  exists d. auto.
Defined.

(** ** Local mode *)

(** C8: a save through a handler with remote mode off makes no call that
    constructs or uses the object-store client; it calls the local save
    routine once, with the document and the path exactly as given; and it
    ends in a dictionary that, when the routine returns a path, reports
    success with that path under [file_path]. *)
Theorem local_save_verbatim (W : Collaborators) (file_path : string)
    (presentation_id : option string) (st st1 : State) (pid : string)
    (pres : Presentation) (h : S3Handler) :
  requested_id W presentation_id = Ret (Some pid) ->
  presentations st !! pid = Some pres ->
  get_s3_handler W st = (Ret h, st1) ->
  s3_enabled h = false ->
  Forall (fun ev => is_remote_event ev = false)
    (events_since st (snd (save_presentation W file_path presentation_id st))) /\
  local_saves
    (events_since st (snd (save_presentation W file_path presentation_id st)))
  = [(pres, file_path)] /\
  exists d,
    fst (save_presentation W file_path presentation_id st) = Ret d /\
    match ppt_save_presentation W pres file_path with
    | Ret saved_path =>
        d !! "success" = Some (VBool true) /\
        d !! "storage_type" = Some (VStr "local") /\
        d !! "file_path" = Some (VStr saved_path) /\
        d !! "presentation_id" = Some (VStr pid)
    | Raise _ => d !! "success" = Some (VBool false)
    end.
Proof.
  intros Hid Hp Hh He.
  rewrite (save_presentation_dispatch W file_path presentation_id st st1 pid
             pres h Hid Hp Hh), He.
  destruct (get_s3_handler_events W st) as (evs0 & Ht & _ & Hq).
  rewrite Hh in Ht, Hq. simpl in Ht, Hq. specialize (Hq h eq_refl He).
  destruct (getenv_events_quiet evs0 Hq) as [Hr0 Hl0].
  assert (Hev : events_since st (add_trace st1 [EvLocalSave pres file_path])
               = (evs0 ++ [EvLocalSave pres file_path])%list).
  { apply events_since_app. simpl. rewrite Ht. now rewrite app_assoc. }
  assert (Hquiet : Forall (fun ev => is_remote_event ev = false)
                     (evs0 ++ [EvLocalSave pres file_path])).
  { apply Forall_app. split; [exact Hr0|]. repeat constructor. }
  assert (Hsaves : local_saves (evs0 ++ [EvLocalSave pres file_path])
                   = [(pres, file_path)]).
  { unfold local_saves in *. rewrite omap_app, Hl0. reflexivity. }
  unfold try_except, save_to_local, call, bind, log. simpl.
  fold (add_trace st1 [EvLocalSave pres file_path]).
  destruct (ppt_save_presentation W pres file_path) as [saved_path|e].
  - simpl. rewrite Hev. split; [exact Hquiet|]. split; [exact Hsaves|].
    eexists. split; [reflexivity|]. repeat split; reflexivity.
  - destruct e; simpl; rewrite Hev;
      (split; [exact Hquiet|]); (split; [exact Hsaves|]);
      eexists; (split; [reflexivity|]); reflexivity.
Qed.

Lemma local_save_verbatim_witness :
  let st0 := initial_state local_env demo_registry in
  let run := save_presentation demo_world "out/q3 deck" (Some "deck") st0 in
  local_saves (events_since st0 (snd run)) = [(demo_pres, "out/q3 deck")] /\
  Forall (fun ev => is_remote_event ev = false) (events_since st0 (snd run)).
Proof.
  intros st0 run.
  assert (Hp : presentations st0 !! "deck" = Some demo_pres)
    by (vm_compute; reflexivity).
  assert (Hh : get_s3_handler demo_world st0
               = (Ret (fst_handler_of local_env),
                  snd (get_s3_handler demo_world st0)))
    by (vm_compute; reflexivity).
  destruct (local_save_verbatim demo_world "out/q3 deck" (Some "deck") st0 _
              "deck" demo_pres _ eq_refl Hp Hh eq_refl)
    as (Hr & Hl & _).
  split; [exact Hl|exact Hr].
Defined.

(** ** The extension of the stored filename *)

(** The claim of C4 fails on a name that already ends with
    ".pptx.pptx": the name is kept as it is, so the [filename] field and
    the last segment of the key both end with ".pptx.pptx". *)
Lemma extension_once_counterexample :
  let run := save_presentation demo_world "out/deck.pptx.pptx" (Some "deck")
               (initial_state demo_env demo_registry) in
  pptx_filename "deck.pptx.pptx" = "deck.pptx.pptx" /\
  PyStr.endswith (pptx_filename "deck.pptx.pptx") ".pptx.pptx" = true /\
  result_field (fst run) "success" = Some (VBool true) /\
  result_field (fst run) "filename" = Some (VStr "deck.pptx.pptx") /\
  result_field (fst run) "key" = Some (VStr "presentations/deck.pptx.pptx").
Proof. cbv zeta. repeat split; vm_compute; reflexivity. Qed.

(** C4, amended: for every input name the stored filename ends with
    ".pptx"; it is the name itself when the name already ends with
    ".pptx" and the name followed by ".pptx" otherwise, so the extension
    is appended at most once; it ends with ".pptx.pptx" exactly when the
    input name already did; and it is the [filename] field of a
    successful upload result and the last segment of its key. *)
Theorem extension_appended_at_most_once (name : string) :
  PyStr.endswith (pptx_filename name) ".pptx" = true /\
  ((PyStr.endswith name ".pptx" = true /\ pptx_filename name = name) \/
   (PyStr.endswith name ".pptx" = false /\
    pptx_filename name = name +:+ ".pptx")) /\
  PyStr.endswith (pptx_filename name) ".pptx.pptx"
  = PyStr.endswith name ".pptx.pptx" /\
  forall W h prs st d,
    s3_enabled h = true ->
    fst (upload_presentation W h prs name st) = Ret d ->
    d !! "success" = Some (VBool true) ->
    d !! "filename" = Some (VStr (pptx_filename name)) /\
    d !! "key"
    = Some (VStr (PyStr.rstrip_slash (s3_prefix h) +:+ "/"
                  +:+ pptx_filename name)).
Proof.
  split; [apply pptx_filename_endswith|].
  split; [apply pptx_filename_cases|].
  split; [apply pptx_filename_double|].
  intros W h prs st d He Hu Hs.
  destruct (upload_presentation_success W h prs name st d He Hu Hs) as [-> _].
  split; reflexivity.
Qed.

Lemma extension_appended_at_most_once_witness :
  upload_result demo_handler "report.pptx" !! "filename"
  = Some (VStr (pptx_filename "report")) /\
  upload_result demo_handler "report.pptx" !! "key"
  = Some (VStr (PyStr.rstrip_slash "presentations/" +:+ "/"
                +:+ pptx_filename "report")).
Proof.
  assert (Hu : fst (upload_presentation demo_world demo_handler demo_pres
                      "report" (initial_state demo_env demo_registry))
               = Ret (upload_result demo_handler "report.pptx"))
    by (vm_compute; reflexivity).
  assert (Hs : upload_result demo_handler "report.pptx" !! "success"
               = Some (VBool true)) by (vm_compute; reflexivity).
  exact (proj2 (proj2 (proj2 (extension_appended_at_most_once "report")))
           demo_world demo_handler demo_pres
           (initial_state demo_env demo_registry)
           (upload_result demo_handler "report.pptx") eq_refl Hu Hs).
Defined.

(** ** The scenarios of the specification *)

Example scenario_demo_bucket :
  s3_key_of "presentations/" (pptx_filename "report")
  = "presentations/report.pptx" /\
  s3_url_of (Some "demo-bucket") "presentations/report.pptx"
  = "s3://demo-bucket/presentations/report.pptx".
Proof. split; reflexivity. Qed.

Example scenario_trailing_slash :
  s3_key_of "decks/" (pptx_filename "q3.pptx") = "decks/q3.pptx".
Proof. reflexivity. Qed.

Example scenario_local_mode :
  fst (get_storage_mode demo_world (initial_state local_env ∅))
  = Ret (dict_of
           [("success", VBool true); ("storage_mode", VStr "local");
            ("message",
             VStr "Local storage is active - presentations will be saved to local file system")]).
Proof. vm_compute. reflexivity. Qed.

Example scenario_unknown_document :
  save_presentation demo_world "report" (Some "missing")
    (initial_state demo_env demo_registry)
  = (Ret (dict_of [("success", VBool false); ("error", VStr not_loaded_msg)]),
     initial_state demo_env demo_registry).
Proof. vm_compute. reflexivity. Qed.

Example scenario_misconfigured :
  fst (save_presentation demo_world "report" (Some "deck")
         (initial_state no_bucket_env demo_registry))
  = Ret (dict_of
           [("success", VBool false);
            ("error",
             VStr "Configuration error: S3_ENABLED is true but S3_BUCKET_NAME is not set. Please check your S3 environment variables.")]).
Proof. vm_compute. reflexivity. Qed.

(** * Further properties of the code *)

(** ** Key construction *)

Lemma basename_fixed (f : string) :
  PyStr.has_slash f = false -> PyStr.basename f = f.
Proof.
  destruct f as [|c r]; [reflexivity|]. simpl.
  intros [Hc Hr]%orb_false_iff. now rewrite Hr, Hc.
Qed.

Lemma has_slash_app (a b : string) :
  PyStr.has_slash (a +:+ b) = PyStr.has_slash a || PyStr.has_slash b.
Proof.
  induction a as [|c a IH]; str_simpl; [reflexivity|].
  rewrite IH. now rewrite orb_assoc.
Qed.

Lemma basename_after_slash (dir f : string) :
  PyStr.has_slash f = false ->
  PyStr.basename (dir +:+ "/" +:+ f) = f.
Proof.
  intros Hf. induction dir as [|c dir IH]; str_simpl.
  - now rewrite Hf.
  - rewrite has_slash_app. simpl. rewrite orb_true_r. exact IH.
Qed.

(** A slash-free tail of the path after a directory part that is empty
    or ends with "/" is the base name: the part after the last "/". *)
Lemma basename_unique (p dir b : string) :
  p = dir +:+ b ->
  PyStr.has_slash b = false ->
  dir = EmptyString \/ PyStr.endswith dir "/" = true ->
  b = PyStr.basename p.
Proof.
  intros -> Hb [-> | Hd].
  - rewrite app_nil_str. symmetry. now apply basename_fixed.
  - apply endswith_spec in Hd as [d' ->].
    rewrite app_assoc_str. symmetry. now apply basename_after_slash.
Qed.

(** X1: the last segment of a remote key is the filename it was built from,
    whatever the prefix: a filename without "/" cannot reach into the
    prefix, and the key never has "//" where prefix and filename meet. *)
Theorem key_last_segment (prefix f : string) :
  PyStr.has_slash f = false ->
  PyStr.basename (s3_key_of prefix f) = f /\
  exists dir, s3_key_of prefix f = dir +:+ "/" +:+ f /\
              PyStr.endswith dir "/" = false.
Proof.
  intros Hf. split.
  - unfold s3_key_of. now apply basename_after_slash.
  - exists (PyStr.rstrip_slash prefix). split; [reflexivity|].
    apply rstrip_slash_no_trailing.
Qed.

Lemma key_last_segment_witness :
  PyStr.basename (s3_key_of "team/decks//" "q3.pptx") = "q3.pptx".
Proof. apply (key_last_segment "team/decks//" "q3.pptx"). reflexivity. Defined.

Lemma rstrip_slash_slashes (n : nat) :
  PyStr.rstrip_slash (PyStr.slashes n) = EmptyString.
Proof.
  induction n as [|n IH]; [reflexivity|]. simpl. rewrite IH.
  reflexivity.
Qed.

(** X2: a prefix normalises to the empty string exactly when it consists of
    "/" characters only (the empty prefix included), and every key built
    from such a prefix starts with "/". *)
Theorem empty_prefix_key (prefix f : string) :
  (PyStr.rstrip_slash prefix = EmptyString <->
   exists n, prefix = PyStr.slashes n) /\
  (forall n, prefix = PyStr.slashes n -> s3_key_of prefix f = "/" +:+ f).
Proof.
  split; [split|].
  - intros H. destruct (rstrip_slash_decompose prefix) as [n Hn].
    exists n. now rewrite H in Hn.
  - intros [n ->]. apply rstrip_slash_slashes.
  - intros n ->. unfold s3_key_of. now rewrite rstrip_slash_slashes.
Qed.

Lemma pptx_filename_idem (name : string) :
  pptx_filename (pptx_filename name) = pptx_filename name.
Proof.
  unfold pptx_filename at 1. now rewrite pptx_filename_endswith.
Qed.

Lemma pptx_filename_no_slash (name : string) :
  PyStr.has_slash name = false -> PyStr.has_slash (pptx_filename name) = false.
Proof.
  intros H. unfold pptx_filename.
  destruct (negb _); [|exact H]. rewrite has_slash_app, H. reflexivity.
Qed.

(** X3: saving again under the [filename] a remote save reported addresses
    the same object: the key of the reported filename is the key of the
    path first given. *)
Theorem resave_same_key (h : S3Handler) (file_path : string) :
  remote_key h (pptx_filename (PyStr.basename file_path))
  = remote_key h file_path.
Proof.
  unfold remote_key.
  rewrite (basename_fixed (pptx_filename (PyStr.basename file_path)))
    by (apply pptx_filename_no_slash, basename_no_slash).
  now rewrite pptx_filename_idem.
Qed.

(** ** Constructing the handler *)

Lemma lower_ascii_letter (lo up : ascii) :
  nat_of_ascii up + 32 = nat_of_ascii lo ->
  (65 <=? nat_of_ascii up)%nat = true ->
  (nat_of_ascii up <=? 90)%nat = true ->
  forall c, PyStr.lower_ascii c = lo <-> letter lo up c.
Proof.
  intros Hlo H1 H2 c. unfold letter, PyStr.lower_ascii.
  assert (Hup : ascii_of_nat (nat_of_ascii up + 32) = lo)
    by (rewrite Hlo; apply ascii_nat_embedding).
  destruct ((65 <=? nat_of_ascii c)%nat && (nat_of_ascii c <=? 90)%nat)%bool
    eqn:E.
  - split.
    + intros H. right.
      apply andb_true_iff in E as [E1 E2].
      apply Nat.leb_le in E1, E2, H1, H2.
      rewrite <- Hup in H.
      apply (f_equal nat_of_ascii) in H.
      assert (Hc : nat_of_ascii c + 32 < 256) by lia.
      assert (Hu : nat_of_ascii up + 32 < 256) by lia.
      rewrite (nat_ascii_embedding _ Hc), (nat_ascii_embedding _ Hu) in H.
      assert (Hn : nat_of_ascii c = nat_of_ascii up) by lia.
      rewrite <- (ascii_nat_embedding c), Hn. apply ascii_nat_embedding.
    + intros [-> | ->].
      * exfalso. apply andb_true_iff in E as [_ E2].
        apply Nat.leb_le in E2, H1. lia.
      * exact Hup.
  - split; [now left|]. intros [-> | ->]; [reflexivity|].
    rewrite H1, H2 in E. discriminate.
Qed.

(** X4: remote mode is requested exactly when [S3_ENABLED] is set to the
    four letters of "true" in any mix of cases; an unset variable and any
    other value ("1", "yes", "true " with a space) leave it off. *)
Theorem remote_requested_iff (env : gmap string string) :
  remote_requested env = true <->
  exists c1 c2 c3 c4,
    env !! "S3_ENABLED"
    = Some (String c1 (String c2 (String c3 (String c4 EmptyString)))) /\
    letter "t" "T" c1 /\ letter "r" "R" c2 /\
    letter "u" "U" c3 /\ letter "e" "E" c4.
Proof.
  unfold remote_requested.
  pose proof (lower_ascii_letter "t" "T" eq_refl eq_refl eq_refl) as Ht.
  pose proof (lower_ascii_letter "r" "R" eq_refl eq_refl eq_refl) as Hr.
  pose proof (lower_ascii_letter "u" "U" eq_refl eq_refl eq_refl) as Hu.
  pose proof (lower_ascii_letter "e" "E" eq_refl eq_refl eq_refl) as He.
  destruct (env !! "S3_ENABLED") as [s|]; simpl.
  - rewrite String.eqb_eq. split.
    + destruct s as [|c1 [|c2 [|c3 [|c4 [|c5 s]]]]]; simpl; try discriminate.
      intros [= H1 H2 H3 H4].
      exists c1, c2, c3, c4. split; [reflexivity|].
      rewrite <- Ht, <- Hr, <- Hu, <- He. auto.
    + intros (c1 & c2 & c3 & c4 & [= ->] & H1 & H2 & H3 & H4). simpl.
      apply Ht in H1. apply Hr in H2. apply Hu in H3. apply He in H4.
      now rewrite H1, H2, H3, H4.
  - split; [discriminate|]. intros (? & ? & ? & ? & [=] & _).
Qed.

(** X5: with remote mode not requested, constructing the handler cannot
    fail, whatever else the environment holds and whatever the client
    constructor would do: it reads the four settings, builds no client,
    and takes "presentations/" and "us-east-1" for an unset prefix and
    region. *)
Theorem local_mode_construction (W : Collaborators) (st : State) :
  remote_requested (environ st) = false ->
  exists h,
    fst (S3Handler_init W st) = Ret h /\
    s3_enabled h = false /\ s3_client h = None /\
    s3_bucket h = environ st !! "S3_BUCKET_NAME" /\
    s3_prefix h = default "presentations/" (environ st !! "S3_PREFIX") /\
    s3_region h = default "us-east-1" (environ st !! "AWS_DEFAULT_REGION") /\
    events_since st (snd (S3Handler_init W st))
    = [EvGetenv "S3_ENABLED"; EvGetenv "S3_BUCKET_NAME";
       EvGetenv "S3_PREFIX"; EvGetenv "AWS_DEFAULT_REGION"].
Proof.
  intros H.
  destruct (S3Handler_init_disabled W st H) as (h & st' & Hrun & He & Hc & Ht).
  exists h. rewrite Hrun. simpl.
  assert (Hh : fst (S3Handler_init W st) = Ret h) by now rewrite Hrun.
  destruct (S3Handler_init_result W st h Hh) as (_ & Hb & Hp & Hr & _).
  repeat split; try assumption. now apply events_since_app.
Qed.

Lemma local_mode_construction_witness :
  exists h,
    fst (S3Handler_init broken_library_world (initial_state local_env ∅))
    = Ret h /\ s3_enabled h = false.
Proof.
  destruct (local_mode_construction broken_library_world
              (initial_state local_env ∅) eq_refl)
    as (h & Hh & He & _).
  exists h. auto.
Defined.

(** X6: with remote mode requested and a bucket named, the outcome of the
    constructor is the outcome of [boto3.client]: a [NoCredentialsError]
    becomes the configuration error "AWS credentials not configured
    properly", every other exception leaves the constructor unchanged,
    and in both cases [get_s3_handler] caches nothing. *)
Theorem client_construction_failure (W : Collaborators) (st : State)
    (e : exn) :
  remote_requested (environ st) = true ->
  falsy_opt (environ st !! "S3_BUCKET_NAME") = false ->
  boto3_client W (environ st !! "AWS_ACCESS_KEY_ID")
    (environ st !! "AWS_SECRET_ACCESS_KEY")
    (default "us-east-1" (environ st !! "AWS_DEFAULT_REGION")) = Raise e ->
  _s3_handler st = None ->
  fst (get_s3_handler W st)
  = Raise (match e with
           | NoCredentialsError _ =>
               ValueError "AWS credentials not configured properly"
           | _ => e
           end) /\
  _s3_handler (snd (get_s3_handler W st)) = None.
Proof.
  unfold remote_requested. intros He Hb Hc Hn.
  destruct (get_s3_handler_fresh W st Hn) as [-> ->].
  unfold S3Handler_init, getenv_default, getenv, bind, log, fresh_obj,
    get_state, ret, raise, try_except, call. simpl.
  rewrite He, Hb. simpl. rewrite Hc.
  destruct e; simpl; auto.
Qed.

Lemma client_construction_failure_witness :
  fst (get_s3_handler
         (with_boto3_client demo_world
            (fun _ _ _ => Raise (NoCredentialsError "Unable to locate credentials")))
         (initial_state demo_env ∅))
  = Raise (ValueError "AWS credentials not configured properly").
Proof.
  apply (client_construction_failure
           (with_boto3_client demo_world
              (fun _ _ _ => Raise (NoCredentialsError "Unable to locate credentials")))
           (initial_state demo_env ∅)
           (NoCredentialsError "Unable to locate credentials"));
    reflexivity.
Defined.

(** ** Saving: the unknown document, the misconfigured process *)

(** X7: a tool given an identifier the registry does not know (or no
    identifier while no presentation is current) returns the not-loaded
    error and leaves the whole state as it was: nothing is serialised, no
    handler is constructed, the document library is not called. *)
Theorem unknown_presentation_is_inert (W : Collaborators)
    (presentation_id pres_id : option string) (st : State) :
  requested_id W presentation_id = Ret pres_id ->
  find_presentation (presentations st) pres_id = None ->
  (forall file_path,
      save_presentation W file_path presentation_id st
      = (Ret (not_loaded true), st)) /\
  get_presentation_info W presentation_id st = (Ret (not_loaded false), st) /\
  (forall title subject author keywords comments,
      set_core_properties W title subject author keywords comments
        presentation_id st
      = (Ret (not_loaded false), st)).
Proof.
  intros Hid Hf.
  unfold save_presentation, get_presentation_info, set_core_properties,
    resolve_presentation_id, lift, bind, get_state.
  rewrite Hid. simpl. rewrite Hf. repeat split.
Qed.

Lemma unknown_presentation_is_inert_witness :
  get_presentation_info demo_world (Some "gone")
    (initial_state demo_env demo_registry)
  = (Ret (not_loaded false), initial_state demo_env demo_registry).
Proof.
  apply (unknown_presentation_is_inert demo_world (Some "gone") (Some "gone")
           (initial_state demo_env demo_registry));
    vm_compute; reflexivity.
Defined.

(** X8: the three tools that fall back on the current presentation call
    [get_current_presentation_id] outside their [try]: when no identifier
    is given and the callback raises, the exception leaves the tool. *)
Theorem current_id_failure_propagates (W : Collaborators) (e : exn)
    (st : State) :
  get_current_presentation_id W = Raise e ->
  (forall file_path, save_presentation W file_path None st = (Raise e, st)) /\
  get_presentation_info W None st = (Raise e, st) /\
  (forall title subject author keywords comments,
      set_core_properties W title subject author keywords comments None st
      = (Raise e, st)).
Proof.
  intros H.
  unfold save_presentation, get_presentation_info, set_core_properties,
    resolve_presentation_id, requested_id, lift, bind.
  rewrite H. repeat split.
Qed.

Lemma current_id_failure_propagates_witness :
  get_presentation_info
    (with_surroundings demo_world (fun _ => true)
       (Raise (OtherError "session closed")) (Ret []))
    None (initial_state demo_env demo_registry)
  = (Raise (OtherError "session closed"),
     initial_state demo_env demo_registry).
Proof.
  apply (current_id_failure_propagates
           (with_surroundings demo_world (fun _ => true)
              (Raise (OtherError "session closed")) (Ret []))
           (OtherError "session closed")
           (initial_state demo_env demo_registry)).
  reflexivity.
Defined.

(** X9: in a process that requests remote mode without naming a bucket, a
    save of a known document returns the configuration error that tells
    the caller to check the S3 environment variables; it reads the four
    settings and does nothing else: no client, no upload, no fall-back
    to a local save, and no handler is cached. *)
Theorem misconfigured_save (W : Collaborators) (file_path : string)
    (presentation_id : option string) (st : State) (pid : string)
    (pres : Presentation) :
  requested_id W presentation_id = Ret (Some pid) ->
  presentations st !! pid = Some pres ->
  _s3_handler st = None ->
  remote_requested (environ st) = true ->
  falsy_opt (environ st !! "S3_BUCKET_NAME") = true ->
  fst (save_presentation W file_path presentation_id st)
  = Ret (configuration_error
           (ValueError "S3_ENABLED is true but S3_BUCKET_NAME is not set")) /\
  _s3_handler (snd (save_presentation W file_path presentation_id st)) = None /\
  events_since st (snd (save_presentation W file_path presentation_id st))
  = [EvGetenv "S3_ENABLED"; EvGetenv "S3_BUCKET_NAME";
     EvGetenv "S3_PREFIX"; EvGetenv "AWS_DEFAULT_REGION"].
Proof.
  unfold remote_requested. intros Hid Hp Hn He Hb.
  assert (Hrun : exists st',
             save_presentation W file_path presentation_id st
             = (Ret (configuration_error
                       (ValueError
                          "S3_ENABLED is true but S3_BUCKET_NAME is not set")),
                st') /\
             _s3_handler st' = None /\
             trace st'
             = (trace st ++ [EvGetenv "S3_ENABLED"; EvGetenv "S3_BUCKET_NAME";
                             EvGetenv "S3_PREFIX";
                             EvGetenv "AWS_DEFAULT_REGION"])%list).
  { unfold save_presentation, resolve_presentation_id, lift.
    unfold bind at 1. rewrite Hid. unfold bind at 1, get_state.
    simpl. rewrite Hp. rewrite try_except_bind.
    unfold get_s3_handler, bind, get_state. rewrite Hn.
    unfold S3Handler_init, getenv_default, getenv, bind, log, fresh_obj,
      get_state, ret, raise. simpl. rewrite He, Hb. simpl.
    eexists. split; [reflexivity|]. split; [exact Hn|].
    simpl. now rewrite <- !app_assoc. }
  destruct Hrun as (st' & -> & Hh & Ht). simpl.
  split; [reflexivity|]. split; [exact Hh|].
  now apply events_since_app.
Qed.

Lemma misconfigured_save_witness :
  fst (save_presentation demo_world "report" (Some "deck")
         (initial_state no_bucket_env demo_registry))
  = Ret (configuration_error
           (ValueError "S3_ENABLED is true but S3_BUCKET_NAME is not set")).
Proof.
  apply (misconfigured_save demo_world "report" (Some "deck")
           (initial_state no_bucket_env demo_registry) "deck" demo_pres);
    vm_compute; reflexivity.
Defined.

(** X10: on a handler with remote mode off, [upload_presentation] raises
    [ValueError] and [generate_presigned_url] returns [None]; neither
    serialises the document, touches the client or changes the state. *)
Theorem disabled_handler_methods (W : Collaborators) (h : S3Handler)
    (st : State) :
  s3_enabled h = false ->
  (forall prs filename,
      upload_presentation W h prs filename st
      = (Raise (ValueError "S3 is not enabled. Set S3_ENABLED=true"), st)) /\
  (forall s3_key expiration,
      generate_presigned_url W h s3_key expiration st = (Ret None, st)).
Proof.
  intros He. unfold upload_presentation, generate_presigned_url.
  rewrite He. split; reflexivity.
Qed.

Lemma disabled_handler_methods_witness :
  generate_presigned_url demo_world (fst_handler_of local_env)
    "presentations/report.pptx" 3600 local_state
  = (Ret None, local_state).
Proof.
  apply (disabled_handler_methods demo_world (fst_handler_of local_env)
           local_state eq_refl).
Defined.

(** ** Saving remotely: how each step can end *)

Lemma save_to_s3_serialise_fails (W : Collaborators) (h : S3Handler)
    (pres : Presentation) (file_path pid : string) (st : State) (e : exn) :
  s3_enabled h = true ->
  prs_save W pres = Raise e ->
  try_except (save_to_s3 W h pres file_path pid) save_except st
  = (Ret (match e with
          | ClientError _ =>
              dict_of [("success", VBool false); ("storage_type", VStr "s3");
                       ("error",
                        VStr ("Failed to upload to S3: " +:+ exn_str e))]
          | ValueError _ => configuration_error e
          | _ => save_failed e
          end),
     add_trace st [EvSerialize pres]).
Proof.
  intros He Hs. unfold try_except, save_to_s3, bind.
  rewrite (upload_presentation_run W h pres _ st He), Hs.
  destruct e; reflexivity.
Qed.

Lemma save_to_s3_upload_fails (W : Collaborators) (h : S3Handler)
    (pres : Presentation) (file_path pid : string) (st : State)
    (buffer : string) (c : Client) (e : exn) :
  s3_enabled h = true ->
  prs_save W pres = Ret buffer ->
  s3_client h = Some c ->
  upload_fileobj W c buffer (s3_bucket h) (remote_key h file_path) = Raise e ->
  try_except (save_to_s3 W h pres file_path pid) save_except st
  = (Ret (match e with
          | ClientError _ =>
              dict_of [("success", VBool false); ("storage_type", VStr "s3");
                       ("error",
                        VStr ("Failed to upload to S3: " +:+ exn_str e))]
          | ValueError _ => configuration_error e
          | _ => save_failed e
          end),
     add_trace st [EvSerialize pres;
                   EvUploadFileobj (s3_bucket h) (remote_key h file_path)
                     pptx_content_type]).
Proof.
  intros He Hs Hc Hu. unfold try_except, save_to_s3, bind.
  rewrite (upload_presentation_run W h pres _ st He), Hs. simpl.
  rewrite Hc. fold (remote_key h file_path). rewrite Hu.
  destruct e; reflexivity.
Qed.

Lemma save_to_s3_after_upload (W : Collaborators) (h : S3Handler)
    (pres : Presentation) (file_path pid : string) (st : State)
    (buffer : string) (c : Client) :
  s3_enabled h = true ->
  prs_save W pres = Ret buffer ->
  s3_client h = Some c ->
  upload_fileobj W c buffer (s3_bucket h) (remote_key h file_path) = Ret tt ->
  try_except (save_to_s3 W h pres file_path pid) save_except st
  = (match client_generate_presigned_url W c (s3_bucket h)
             (remote_key h file_path) 3600 with
     | Ret url =>
         Ret (if String.eqb url EmptyString
              then s3_response h file_path pid
              else s3_response_signed h file_path pid url)
     | Raise e =>
         Ret (match e with
              | ClientError _ => s3_response h file_path pid
              | ValueError _ => configuration_error e
              | _ => save_failed e
              end)
     end,
     add_trace st (remote_save_calls h pres file_path)).
Proof.
  intros He Hs Hc Hu.
  pose proof (upload_presentation_run W h pres (PyStr.basename file_path) st He)
    as Hrun.
  rewrite Hs in Hrun. simpl in Hrun. rewrite Hc in Hrun.
  fold (remote_key h file_path) in Hrun. rewrite Hu in Hrun.
  assert (Hup : fst (upload_presentation W h pres (PyStr.basename file_path) st)
                = Ret (upload_result h (pptx_filename (PyStr.basename file_path))))
    by (now rewrite Hrun).
  pose proof (save_to_s3_uploaded W h pres file_path pid st _ He Hup
                (proj1 (upload_result_lookup h _))) as Hsave.
  cbv zeta in Hsave. rewrite Hrun in Hsave. simpl in Hsave.
  rewrite (generate_presigned_url_run W h _ 3600 _ He), Hc in Hsave.
  rewrite add_trace_app in Hsave. simpl in Hsave.
  unfold try_except. rewrite Hsave.
  destruct (client_generate_presigned_url W c (s3_bucket h)
              (remote_key h file_path) 3600) as [url|e].
  - simpl. destruct (String.eqb url EmptyString); reflexivity.
  - destruct e; reflexivity.
Qed.

(** X11: when serialising the document raises, the save reports failure and
    nothing reaches the object store: the only outward call is the
    serialisation itself. *)
Theorem failed_serialisation_uploads_nothing (W : Collaborators)
    (file_path : string) (presentation_id : option string) (st st1 : State)
    (pid : string) (pres : Presentation) (h : S3Handler) (e : exn) :
  requested_id W presentation_id = Ret (Some pid) ->
  presentations st !! pid = Some pres ->
  get_s3_handler W st = (Ret h, st1) ->
  s3_enabled h = true ->
  prs_save W pres = Raise e ->
  result_field (fst (save_presentation W file_path presentation_id st))
    "success" = Some (VBool false) /\
  snd (save_presentation W file_path presentation_id st)
  = add_trace st1 [EvSerialize pres].
Proof.
  intros Hid Hp Hh He Hs.
  rewrite (save_presentation_dispatch W file_path presentation_id st st1 pid
             pres h Hid Hp Hh), He.
  rewrite (save_to_s3_serialise_fails W h pres file_path pid st1 e He Hs).
  split; [|reflexivity]. destruct e; reflexivity.
Qed.

Lemma failed_serialisation_uploads_nothing_witness :
  snd (save_presentation broken_library_world "report" (Some "deck")
         remote_state)
  = add_trace remote_state [EvSerialize demo_pres].
Proof.
  apply (failed_serialisation_uploads_nothing broken_library_world "report"
           (Some "deck") remote_state remote_state "deck" demo_pres
           demo_handler (OtherError "corrupt"));
    vm_compute; reflexivity.
Defined.

(** X12: an upload the object store rejects with a [ClientError] is reported
    as a failure of storage type "s3" whose error is "Failed to upload to
    S3: " followed by the store's message, and no signed URL is asked
    for. *)
Theorem rejected_upload_reported (W : Collaborators)
    (file_path : string) (presentation_id : option string) (st st1 : State)
    (pid : string) (pres : Presentation) (h : S3Handler)
    (buffer : string) (c : Client) (msg : string) :
  requested_id W presentation_id = Ret (Some pid) ->
  presentations st !! pid = Some pres ->
  get_s3_handler W st = (Ret h, st1) ->
  s3_enabled h = true ->
  prs_save W pres = Ret buffer ->
  s3_client h = Some c ->
  upload_fileobj W c buffer (s3_bucket h) (remote_key h file_path)
  = Raise (ClientError msg) ->
  save_presentation W file_path presentation_id st
  = (Ret (dict_of [("success", VBool false); ("storage_type", VStr "s3");
                   ("error", VStr ("Failed to upload to S3: " +:+ msg))]),
     add_trace st1 [EvSerialize pres;
                    EvUploadFileobj (s3_bucket h) (remote_key h file_path)
                      pptx_content_type]).
Proof.
  intros Hid Hp Hh He Hs Hc Hu.
  rewrite (save_presentation_dispatch W file_path presentation_id st st1 pid
             pres h Hid Hp Hh), He.
  apply (save_to_s3_upload_fails W h pres file_path pid st1 buffer c
           (ClientError msg) He Hs Hc Hu).
Qed.

Lemma rejected_upload_reported_witness :
  fst (save_presentation
         (with_store demo_world
            (fun _ _ _ _ => Raise (ClientError "AccessDenied"))
            (fun _ _ _ _ => Ret "unused"))
         "report" (Some "deck") remote_state)
  = Ret (dict_of [("success", VBool false); ("storage_type", VStr "s3");
                  ("error", VStr "Failed to upload to S3: AccessDenied")]).
Proof.
  rewrite (rejected_upload_reported
             (with_store demo_world
                (fun _ _ _ _ => Raise (ClientError "AccessDenied"))
                (fun _ _ _ _ => Ret "unused"))
             "report" (Some "deck") remote_state remote_state "deck" demo_pres
             demo_handler "PK" demo_client "AccessDenied");
    vm_compute; reflexivity.
Defined.

(** X13: an exception of the signing call that is not a [ClientError] is not
    caught by [generate_presigned_url]: the save then reports failure
    although the upload went through and the object is in the store. *)
Theorem presign_crash_fails_uploaded_save (W : Collaborators)
    (file_path : string) (presentation_id : option string) (st st1 : State)
    (pid : string) (pres : Presentation) (h : S3Handler)
    (buffer : string) (c : Client) (e : exn) :
  requested_id W presentation_id = Ret (Some pid) ->
  presentations st !! pid = Some pres ->
  get_s3_handler W st = (Ret h, st1) ->
  s3_enabled h = true ->
  prs_save W pres = Ret buffer ->
  s3_client h = Some c ->
  upload_fileobj W c buffer (s3_bucket h) (remote_key h file_path) = Ret tt ->
  client_generate_presigned_url W c (s3_bucket h) (remote_key h file_path) 3600
  = Raise e ->
  (forall msg, e <> ClientError msg) ->
  result_field (fst (save_presentation W file_path presentation_id st))
    "success" = Some (VBool false) /\
  result_field (fst (save_presentation W file_path presentation_id st)) "key"
  = None /\
  uploads (events_since st1
             (snd (save_presentation W file_path presentation_id st)))
  = [(s3_bucket h, remote_key h file_path)].
Proof.
  intros Hid Hp Hh He Hs Hc Hu Hg Hne.
  rewrite (save_presentation_dispatch W file_path presentation_id st st1 pid
             pres h Hid Hp Hh), He.
  rewrite (save_to_s3_after_upload W h pres file_path pid st1 buffer c
             He Hs Hc Hu), Hg.
  simpl. rewrite events_since_add_trace.
  destruct e; try (repeat split; reflexivity).
  exfalso. eapply Hne. reflexivity.
Qed.

Lemma presign_crash_fails_uploaded_save_witness :
  let W := with_store demo_world (fun _ _ _ _ => Ret tt)
             (fun _ _ _ _ => Raise (NoCredentialsError "no credentials")) in
  result_field (fst (save_presentation W "report" (Some "deck") remote_state))
    "success" = Some (VBool false) /\
  uploads (events_since remote_state
             (snd (save_presentation W "report" (Some "deck") remote_state)))
  = [(Some "demo-bucket", "presentations/report.pptx")].
Proof.
  intros W.
  destruct (presign_crash_fails_uploaded_save W "report" (Some "deck")
              remote_state remote_state "deck" demo_pres demo_handler "PK"
              demo_client (NoCredentialsError "no credentials")
              eq_refl eq_refl eq_refl eq_refl eq_refl eq_refl eq_refl eq_refl)
    as (H1 & _ & H3); [discriminate|].
  split; [exact H1|exact H3].
Defined.

(** X14: when the upload goes through and a non-empty URL is signed, the
    response is the plain success response with three changes: the URL
    under [presigned_url], "1 hour" under [presigned_url_expires], and
    the URL appended to the message; the outward calls are serialise,
    upload, sign, in this order. *)
Theorem signed_url_added (W : Collaborators)
    (file_path : string) (presentation_id : option string) (st st1 : State)
    (pid : string) (pres : Presentation) (h : S3Handler)
    (buffer : string) (c : Client) (url : string) :
  requested_id W presentation_id = Ret (Some pid) ->
  presentations st !! pid = Some pres ->
  get_s3_handler W st = (Ret h, st1) ->
  s3_enabled h = true ->
  prs_save W pres = Ret buffer ->
  s3_client h = Some c ->
  upload_fileobj W c buffer (s3_bucket h) (remote_key h file_path) = Ret tt ->
  client_generate_presigned_url W c (s3_bucket h) (remote_key h file_path) 3600
  = Ret url ->
  url <> EmptyString ->
  exists d,
    save_presentation W file_path presentation_id st
    = (Ret d, add_trace st1 (remote_save_calls h pres file_path)) /\
    d !! "presigned_url" = Some (VStr url) /\
    d !! "presigned_url_expires" = Some (VStr "1 hour") /\
    d !! "message"
    = Some (VStr (("Presentation saved to S3: "
                   +:+ s3_url_of (s3_bucket h) (remote_key h file_path))
                  +:+ newline +:+ newline
                  +:+ "Temporary download URL (expires in 1 hour):"
                  +:+ newline +:+ url)) /\
    forall k, k <> "presigned_url" -> k <> "presigned_url_expires" ->
              k <> "message" ->
              d !! k = s3_response h file_path pid !! k.
Proof.
  intros Hid Hp Hh He Hs Hc Hu Hg Hne.
  rewrite (save_presentation_dispatch W file_path presentation_id st st1 pid
             pres h Hid Hp Hh), He.
  rewrite (save_to_s3_after_upload W h pres file_path pid st1 buffer c
             He Hs Hc Hu), Hg.
  apply String.eqb_neq in Hne. rewrite Hne.
  exists (s3_response_signed h file_path pid url).
  split; [reflexivity|]. unfold s3_response_signed.
  split; [reflexivity|]. split; [reflexivity|]. split; [reflexivity|].
  intros k H1 H2 H3. now rewrite !lookup_insert_ne by congruence.
Qed.

Lemma signed_url_added_witness :
  exists d,
    fst (save_presentation demo_world "report" (Some "deck") remote_state)
    = Ret d /\
    d !! "presigned_url"
    = Some (VStr "https://signed.example/presentations/report.pptx").
Proof.
  destruct (signed_url_added demo_world "report" (Some "deck") remote_state
              remote_state "deck" demo_pres demo_handler "PK" demo_client
              "https://signed.example/presentations/report.pptx"
              eq_refl eq_refl eq_refl eq_refl eq_refl eq_refl eq_refl eq_refl)
    as (d & Hd & Hu & _); [discriminate|].
  exists d. rewrite Hd. auto.
Defined.

(** ** The storage-mode query *)

(** X15: [get_storage_mode] never raises and ends in the state
    [get_s3_handler] leaves.  With a handler in remote mode it reports
    "s3" with the handler's bucket, prefix and region; with one in local
    mode it reports "local" and has no bucket, prefix or region field;
    and when the handler cannot be constructed it reports failure with
    "Failed to get storage mode: " and the exception's text. *)
Theorem storage_mode_report (W : Collaborators) (st : State) :
  snd (get_storage_mode W st) = snd (get_s3_handler W st) /\
  exists d,
    fst (get_storage_mode W st) = Ret d /\
    match fst (get_s3_handler W st) with
    | Ret h =>
        d !! "success" = Some (VBool true) /\
        if s3_enabled h then
          d !! "storage_mode" = Some (VStr "s3") /\
          d !! "s3_bucket" = Some (val_of_opt (s3_bucket h)) /\
          d !! "s3_prefix" = Some (VStr (s3_prefix h)) /\
          d !! "s3_region" = Some (VStr (s3_region h))
        else
          d !! "storage_mode" = Some (VStr "local") /\
          d !! "s3_bucket" = None /\ d !! "s3_prefix" = None /\
          d !! "s3_region" = None
    | Raise e =>
        d = dict_of [("success", VBool false);
                     ("error",
                      VStr ("Failed to get storage mode: " +:+ exn_str e))]
    end.
Proof.
  unfold get_storage_mode. rewrite try_except_bind.
  destruct (get_s3_handler W st) as [[h|e] st1]; simpl.
  - destruct (s3_enabled h); unfold try_except, ret; simpl;
      (split; [reflexivity|]); eexists; (split; [reflexivity|]);
      repeat split; reflexivity.
  - unfold ret. split; [reflexivity|]. eexists. split; reflexivity.
Qed.

Lemma remote_save_prefix_local (h : S3Handler) (pres : Presentation)
    (file_path : string) (evs : list Event) :
  evs `prefix_of` remote_save_calls h pres file_path -> local_saves evs = [].
Proof.
  intros [k Hk].
  assert (H : local_saves (remote_save_calls h pres file_path) = [])
    by reflexivity.
  rewrite Hk in H. unfold local_saves in *. rewrite omap_app in H.
  now apply app_eq_nil in H as [H _].
Qed.

(** X16: the mode [get_storage_mode] reports is the mode the next save uses,
    even if the environment is changed in between: after "local" the
    save makes exactly one outward call, the local save of the document
    at the path given; after "s3" it makes no local save, only an initial
    part of serialise, upload, sign through the cached handler. *)
Theorem reported_mode_is_used (W : Collaborators) (st st1 : State)
    (d : Dict) (env : gmap string string) (file_path : string)
    (presentation_id : option string) (pid : string) (pres : Presentation) :
  get_storage_mode W st = (Ret d, st1) ->
  requested_id W presentation_id = Ret (Some pid) ->
  presentations st1 !! pid = Some pres ->
  (d !! "storage_mode" = Some (VStr "local") ->
   events_since st1
     (snd (save_presentation W file_path presentation_id (set_environ env st1)))
   = [EvLocalSave pres file_path]) /\
  (d !! "storage_mode" = Some (VStr "s3") ->
   exists h,
     _s3_handler st1 = Some h /\
     events_since st1
       (snd (save_presentation W file_path presentation_id
               (set_environ env st1)))
     `prefix_of` remote_save_calls h pres file_path /\
     local_saves
       (events_since st1
          (snd (save_presentation W file_path presentation_id
                  (set_environ env st1)))) = []).
Proof.
  intros Hmode Hid Hp.
  unfold get_storage_mode in Hmode. rewrite try_except_bind in Hmode.
  destruct (get_s3_handler W st) as [[h|e] st'] eqn:Hh.
  2:{ unfold ret in Hmode. simpl in Hmode. injection Hmode as <- <-.
      split; intros H; vm_compute in H; discriminate. }
  pose proof (get_s3_handler_returns W st st' h Hh) as Hc.
  assert (Hst : st' = st1 /\
                d !! "storage_mode"
                = Some (VStr (if s3_enabled h then "s3" else "local"))).
  { destruct (s3_enabled h); unfold try_except, ret in Hmode;
      simpl in Hmode; injection Hmode as <- <-; split; reflexivity. }
  destruct Hst as [-> Hd]. rewrite Hd.
  pose proof (get_s3_handler_cached W (set_environ env st1) h Hc) as Hget.
  rewrite (save_presentation_dispatch W file_path presentation_id
             (set_environ env st1) (set_environ env st1) pid pres h
             Hid Hp Hget).
  destruct (s3_enabled h) eqn:He; split; intros Hm; try discriminate.
  - destruct (save_to_s3_cases W h pres file_path pid (set_environ env st1) He)
      as (d' & evs & -> & Hpre & _).
    exists h. split; [exact Hc|].
    assert (Hev : events_since st1
                    (snd (Ret d', add_trace (set_environ env st1) evs)) = evs)
      by (apply events_since_app; reflexivity).
    rewrite Hev. split; [exact Hpre|].
    eapply remote_save_prefix_local; eassumption.
  - unfold try_except, save_to_local, call, bind, log. simpl.
    destruct (ppt_save_presentation W pres file_path) as [p|e];
      [|destruct e]; apply events_since_app; reflexivity.
Qed.

Lemma reported_mode_is_used_witness :
  let st1 := snd (get_storage_mode demo_world
                    (initial_state local_env demo_registry)) in
  events_since st1
    (snd (save_presentation demo_world "out/q3" (Some "deck")
            (set_environ demo_env st1)))
  = [EvLocalSave demo_pres "out/q3"].
Proof.
  intros st1.
  assert (Hm : get_storage_mode demo_world
                 (initial_state local_env demo_registry)
               = (Ret (dict_of
                         [("success", VBool true);
                          ("storage_mode", VStr "local");
                          ("message",
                           VStr "Local storage is active - presentations will be saved to local file system")]),
                  st1)) by (vm_compute; reflexivity).
  assert (Hp : presentations st1 !! "deck" = Some demo_pres)
    by (vm_compute; reflexivity).
  apply (proj1 (reported_mode_is_used demo_world _ st1 _ demo_env "out/q3"
                  (Some "deck") "deck" demo_pres Hm eq_refl Hp)).
  vm_compute; reflexivity.
Defined.

(** ** The registry *)

Lemma keeps_ret {A} (a : A) : keeps_registry (ret a).
Proof. intros st. reflexivity. Qed.

Lemma keeps_raise {A} (e : exn) : keeps_registry (@raise A e).
Proof. intros st. reflexivity. Qed.

Lemma keeps_lift {A} (o : Outcome A) : keeps_registry (lift o).
Proof. intros st. reflexivity. Qed.

Lemma keeps_get_state : keeps_registry get_state.
Proof. intros st. reflexivity. Qed.

Lemma keeps_log (ev : Event) : keeps_registry (log ev).
Proof. intros st. reflexivity. Qed.

Lemma keeps_fresh_obj : keeps_registry fresh_obj.
Proof. intros st. reflexivity. Qed.

Lemma keeps_set_s3_handler (h : S3Handler) : keeps_registry (set_s3_handler h).
Proof. intros st. reflexivity. Qed.

Lemma keeps_bind {A B} (m : M A) (k : A -> M B) :
  keeps_registry m -> (forall a, keeps_registry (k a)) ->
  keeps_registry (bind m k).
Proof.
  intros Hm Hk st. unfold bind. specialize (Hm st).
  destruct (m st) as [[a|e] st']; simpl in *; [|exact Hm].
  now rewrite Hk.
Qed.

Lemma keeps_try_except {A} (m : M A) (handler : exn -> option (M A)) :
  keeps_registry m ->
  (forall e h, handler e = Some h -> keeps_registry h) ->
  keeps_registry (try_except m handler).
Proof.
  intros Hm Hh st. unfold try_except. specialize (Hm st).
  destruct (m st) as [[a|e] st']; simpl in *; [exact Hm|].
  destruct (handler e) as [h|] eqn:E; [|exact Hm].
  now rewrite (Hh e h E).
Qed.

Lemma keeps_call {A} (ev : Event) (o : Outcome A) : keeps_registry (call ev o).
Proof. intros st. reflexivity. Qed.

Lemma keeps_getenv (name : string) : keeps_registry (getenv name).
Proof. intros st. reflexivity. Qed.

Lemma keeps_getenv_default (name dflt : string) :
  keeps_registry (getenv_default name dflt).
Proof. intros st. reflexivity. Qed.

Lemma keeps_getitem (d : Dict) (k : string) : keeps_registry (getitem d k).
Proof. intros st. unfold getitem. destruct (d !! k); reflexivity. Qed.

Lemma keeps_as_str (v : PyVal) : keeps_registry (as_str v).
Proof. intros st. destruct v; reflexivity. Qed.

Lemma keeps_the_client (h : S3Handler) (method : string) :
  keeps_registry (the_client h method).
Proof. intros st. unfold the_client. destruct (s3_client h); reflexivity. Qed.

(** Goals [keeps_registry m] for [m] built from the operations above. *)
Ltac keeps_step :=
  match goal with
  | |- keeps_registry (bind _ _) => apply keeps_bind; [|intros ?]
  | |- keeps_registry (try_except _ _) =>
      apply keeps_try_except;
      [|let e := fresh "e" in let h := fresh "h" in let H := fresh "H" in
        intros e h H; destruct e; simpl in H; try discriminate H;
        injection H as <-]
  | |- keeps_registry (ret _) => apply keeps_ret
  | |- keeps_registry (raise _) => apply keeps_raise
  | |- keeps_registry (lift _) => apply keeps_lift
  | |- keeps_registry get_state => apply keeps_get_state
  | |- keeps_registry (log _) => apply keeps_log
  | |- keeps_registry (call _ _) => apply keeps_call
  | |- keeps_registry fresh_obj => apply keeps_fresh_obj
  | |- keeps_registry (set_s3_handler _) => apply keeps_set_s3_handler
  | |- keeps_registry (getenv _) => apply keeps_getenv
  | |- keeps_registry (getenv_default _ _) => apply keeps_getenv_default
  | |- keeps_registry (getitem _ _) => apply keeps_getitem
  | |- keeps_registry (as_str _) => apply keeps_as_str
  | |- keeps_registry (the_client _ _) => apply keeps_the_client
  | |- keeps_registry (if ?b then _ else _) => destruct b
  | |- keeps_registry (match ?x with _ => _ end) => destruct x
  | |- keeps_registry (let _ := _ in _) => cbv zeta
  end.

Lemma keeps_get_s3_handler (W : Collaborators) :
  keeps_registry (get_s3_handler W).
Proof. unfold get_s3_handler, S3Handler_init. repeat keeps_step. Qed.

Lemma keeps_upload_presentation (W : Collaborators) (h : S3Handler)
    (prs : Presentation) (name : string) :
  keeps_registry (upload_presentation W h prs name).
Proof. unfold upload_presentation. repeat keeps_step. Qed.

Lemma keeps_generate_presigned_url (W : Collaborators) (h : S3Handler)
    (key : string) (n : nat) :
  keeps_registry (generate_presigned_url W h key n).
Proof. unfold generate_presigned_url. repeat keeps_step. Qed.

Lemma keeps_save_to_s3 (W : Collaborators) (h : S3Handler)
    (pres : Presentation) (file_path pid : string) :
  keeps_registry (save_to_s3 W h pres file_path pid).
Proof.
  unfold save_to_s3.
  repeat first [apply keeps_upload_presentation
               | apply keeps_generate_presigned_url | keeps_step].
Qed.

(** X17: only the tools that create or open a presentation write the
    registry: [save_presentation], [get_presentation_info],
    [set_core_properties], [get_storage_mode] and
    [get_template_file_info] leave it exactly as it was, for every input
    and whatever the collaborators answer or raise. *)
Theorem registry_read_only (W : Collaborators) :
  (forall file_path presentation_id,
      keeps_registry (save_presentation W file_path presentation_id)) /\
  (forall presentation_id,
      keeps_registry (get_presentation_info W presentation_id)) /\
  (forall title subject author keywords comments presentation_id,
      keeps_registry (set_core_properties W title subject author keywords
                        comments presentation_id)) /\
  keeps_registry (get_storage_mode W) /\
  (forall template_path,
      keeps_registry (get_template_file_info W template_path)).
Proof.
  repeat apply conj; intros;
    unfold save_presentation, get_presentation_info, set_core_properties,
      get_storage_mode, get_template_file_info, resolve_presentation_id,
      save_to_local, save_except, search_template;
    repeat first [apply keeps_get_s3_handler | apply keeps_save_to_s3
                 | keeps_step].
Qed.

(** X18: [get_presentation_info] returns what the document library reports
    with the identifier the document was found under written over
    [presentation_id]; every other key of the library's dictionary comes
    back unchanged. *)
Theorem info_tagged_with_id (W : Collaborators)
    (presentation_id : option string) (pid : string) (pres : Presentation)
    (info : Dict) (st : State) :
  requested_id W presentation_id = Ret (Some pid) ->
  presentations st !! pid = Some pres ->
  ppt_get_presentation_info W pres = Ret info ->
  exists d,
    fst (get_presentation_info W presentation_id st) = Ret d /\
    d !! "presentation_id" = Some (VStr pid) /\
    forall k, k <> "presentation_id" -> d !! k = info !! k.
Proof.
  intros Hid Hp Hi.
  unfold get_presentation_info, resolve_presentation_id, lift, bind, get_state.
  rewrite Hid. simpl. rewrite Hp.
  unfold try_except, call, bind, log, ret. simpl. rewrite Hi.
  eexists. split; [reflexivity|]. split.
  - apply lookup_insert_eq.
  - intros k Hk. now apply lookup_insert_ne.
Qed.

Lemma info_tagged_with_id_witness :
  exists d,
    fst (get_presentation_info no_presign_world None
           (initial_state demo_env demo_registry)) = Ret d /\
    d !! "presentation_id" = Some (VStr "deck") /\
    d !! "slide_count" = Some (VInt 1).
Proof.
  destruct (info_tagged_with_id no_presign_world None "deck" demo_pres
              (dict_of [("slide_count", VInt 1)])
              (initial_state demo_env demo_registry)
              eq_refl eq_refl eq_refl) as (d & Hd & Hid & Hk).
  exists d. split; [exact Hd|]. split; [exact Hid|].
  rewrite Hk by discriminate. reflexivity.
Defined.

(** X19: a presentation created under an explicit identifier is the one the
    registry then holds under it, also when the identifier was taken;
    every other entry is untouched, and the registry grows by one entry
    or, if the identifier was taken, keeps its size. *)
Theorem create_stores_under_id (W : Collaborators) (id : string)
    (st : State) (pres : Presentation) :
  ppt_create_presentation W = Ret pres ->
  find_presentation (presentations (snd (create_presentation W (Some id) st)))
    (Some id) = Some (id, pres) /\
  (forall j, j <> id ->
             presentations (snd (create_presentation W (Some id) st)) !! j
             = presentations st !! j) /\
  size (presentations (snd (create_presentation W (Some id) st)))
  = match presentations st !! id with
    | Some _ => size (presentations st)
    | None => S (size (presentations st))
    end.
Proof.
  intros Hc.
  destruct (create_presentation_run W (Some id) st pres Hc)
    as (d & st' & -> & _ & _ & _ & Hreg).
  simpl in *. rewrite Hreg. split; [|split].
  - now rewrite lookup_insert_eq.
  - intros j Hj. now apply lookup_insert_ne.
  - destruct (presentations st !! id) as [old|] eqn:E.
    + rewrite <- (insert_delete_id (presentations st) id old E) at 2.
      rewrite <- insert_delete_eq.
      now rewrite !map_size_insert_None by apply lookup_delete_eq.
    + now apply map_size_insert_None.
Qed.

Lemma create_stores_under_id_witness :
  find_presentation
    (presentations (snd (create_presentation other_world (Some "deck")
                           (initial_state demo_env demo_registry))))
    (Some "deck") = Some ("deck", other_pres).
Proof.
  apply (create_stores_under_id other_world "deck"
           (initial_state demo_env demo_registry) other_pres eq_refl).
Defined.

Lemma to_uint_nonnil (n : nat) : Nat.to_uint n <> Decimal.Nil.
Proof.
  intros H. assert (Hn : n = 0).
  { rewrite <- (DecimalNat.Unsigned.of_to n), H. reflexivity. }
  subst n. discriminate H.
Qed.

Lemma str_of_nat_inj (i j : nat) :
  PyStr.str_of_nat i = PyStr.str_of_nat j -> i = j.
Proof.
  unfold PyStr.str_of_nat. intros H.
  apply DecimalNat.Unsigned.to_uint_inj.
  assert (Hs : Some (Nat.to_uint i) = Some (Nat.to_uint j)).
  { rewrite <- (NilZero.usu (Nat.to_uint i)) by apply to_uint_nonnil.
    rewrite <- (NilZero.usu (Nat.to_uint j)) by apply to_uint_nonnil.
    now rewrite H. }
  now injection Hs.
Qed.

Lemma id_of_inj (i j : nat) : id_of i = id_of j -> i = j.
Proof.
  unfold id_of. intros H. apply str_of_nat_inj.
  eapply (String.app_inj "presentation_"). exact H.
Qed.

(** The shape of a registry filled by [n] generated identifiers. *)
Lemma create_n_registry (W : Collaborators) (pres : Presentation)
    (st : State) (n : nat) :
  ppt_create_presentation W = Ret pres ->
  presentations st = ∅ ->
  size (presentations (create_n W n st)) = n /\
  (forall i, 1 <= i <= n ->
             presentations (create_n W n st) !! id_of i = Some pres) /\
  (forall k, is_Some (presentations (create_n W n st) !! k) ->
             exists i, 1 <= i <= n /\ k = id_of i).
Proof.
  intros Hc H0. induction n as [|n (IHs & IHin & IHout)]; simpl.
  - rewrite H0. split; [apply map_size_empty|]. split.
    + intros i Hi. lia.
    + intros k [x Hx]. rewrite lookup_empty in Hx. discriminate.
  - destruct (create_presentation_run W None (create_n W n st) pres Hc)
      as (d & st' & -> & _ & _ & _ & Hreg).
    simpl in *. rewrite Hreg. clear Hreg.
    assert (Hid : auto_id (presentations (create_n W n st)) = id_of (S n)).
    { unfold auto_id, id_of. rewrite IHs. now rewrite Nat.add_1_r. }
    rewrite Hid.
    assert (Hfresh : presentations (create_n W n st) !! id_of (S n) = None).
    { destruct (presentations (create_n W n st) !! id_of (S n)) as [x|] eqn:E;
        [|reflexivity].
      destruct (IHout (id_of (S n))) as (i & Hi & Heq); [now exists x|].
      apply id_of_inj in Heq. lia. }
    split; [rewrite map_size_insert_None by exact Hfresh; now rewrite IHs|].
    split.
    + intros i Hi. destruct (decide (i = S n)) as [->|Hne].
      * apply lookup_insert_eq.
      * rewrite lookup_insert_ne
          by (intros Heq; apply id_of_inj in Heq; congruence).
        apply IHin. lia.
    + intros k Hk. destruct (decide (k = id_of (S n))) as [->|Hne].
      * exists (S n). split; [lia|reflexivity].
      * rewrite lookup_insert_ne in Hk by congruence.
        destruct (IHout k Hk) as (i & Hi & ->). exists i. split; [lia|reflexivity].
Qed.

(** X20: from an empty registry, [n] creations without identifier never
    collide: the registry then has exactly [n] entries, under
    "presentation_1" to "presentation_n", and the next generated
    identifier is free. *)
Theorem generated_ids_sequential (W : Collaborators) (pres : Presentation)
    (st : State) (n : nat) :
  ppt_create_presentation W = Ret pres ->
  presentations st = ∅ ->
  size (presentations (create_n W n st)) = n /\
  (forall i, 1 <= i <= n ->
             presentations (create_n W n st) !! id_of i = Some pres) /\
  presentations (create_n W n st)
    !! auto_id (presentations (create_n W n st)) = None.
Proof.
  intros Hc H0.
  destruct (create_n_registry W pres st n Hc H0) as (Hs & Hin & Hout).
  split; [exact Hs|]. split; [exact Hin|].
  unfold auto_id. rewrite Hs, Nat.add_1_r. fold (id_of (S n)).
  destruct (presentations (create_n W n st) !! id_of (S n)) as [x|] eqn:E;
    [|reflexivity].
  destruct (Hout (id_of (S n))) as (i & Hi & Heq); [now exists x|].
  apply id_of_inj in Heq. lia.
Qed.

Lemma generated_ids_sequential_witness :
  size (presentations (create_n demo_world 3 (initial_state demo_env ∅))) = 3 /\
  presentations (create_n demo_world 3 (initial_state demo_env ∅))
    !! "presentation_2" = Some demo_pres.
Proof.
  destruct (generated_ids_sequential demo_world demo_pres
              (initial_state demo_env ∅) 3 eq_refl eq_refl) as (Hs & Hk & _).
  split; [exact Hs|]. apply (Hk 2). lia.
Defined.

(** ** Opening files and locating templates *)

Ltac has_presentation_id H :=
  simpl in H; unfold result_field in H;
  match type of H with
  | ?x = None =>
      let Hs := fresh in
      assert (Hs : is_Some x) by (eexists; reflexivity);
      rewrite H in Hs; destruct Hs as [? Hs]; discriminate Hs
  end.

(** X21: [open_presentation] on a path that does not exist returns "File not
    found" without calling the document library or changing the state; a
    failure of the library is returned as "Failed to open presentation";
    and whenever the result names no [presentation_id], the registry is
    as it was. *)
Theorem open_presentation_failures (W : Collaborators) (file_path : string)
    (id : option string) (st : State) :
  (os_path_exists W file_path = false ->
   open_presentation W file_path id st
   = (Ret (dict_of [("error", VStr ("File not found: " +:+ file_path))]),
      st)) /\
  (forall e,
      os_path_exists W file_path = true ->
      ppt_open_presentation W file_path = Raise e ->
      fst (open_presentation W file_path id st)
      = Ret (dict_of [("error",
                       VStr ("Failed to open presentation: " +:+ exn_str e))])) /\
  (result_field (fst (open_presentation W file_path id st)) "presentation_id"
   = None ->
   presentations (snd (open_presentation W file_path id st))
   = presentations st).
Proof.
  split; [|split].
  - intros He. unfold open_presentation. now rewrite He.
  - intros e He Ho. now apply open_presentation_catches.
  - unfold open_presentation.
    destruct (os_path_exists W file_path); simpl; [|reflexivity].
    unfold try_except, call, bind, log, ret. simpl.
    destruct (ppt_open_presentation W file_path) as [pres|e]; simpl;
      [|reflexivity].
    destruct id as [i|]; simpl; intros H; has_presentation_id H.
Qed.

Lemma search_template_spec (W : Collaborators) (dirs : list string)
    (name : string) :
  match search_template W dirs name with
  | Some p =>
      exists pre d post,
        dirs = (pre ++ d :: post)%list /\ p = PyStr.path_join d name /\
        os_path_exists W p = true /\
        Forall (fun d' => os_path_exists W (PyStr.path_join d' name) = false)
          pre
  | None =>
      Forall (fun d => os_path_exists W (PyStr.path_join d name) = false) dirs
  end.
Proof.
  unfold search_template. induction dirs as [|d dirs IH]; simpl.
  - constructor.
  - destruct (os_path_exists W (PyStr.path_join d name)) eqn:E.
    + exists [], d, dirs. repeat split; auto.
    + destruct (find _ dirs) as [d'|].
      * destruct IH as (pre & d0 & post & -> & Hp & He & Hpre).
        exists (d :: pre), d0, post. repeat split; auto.
      * constructor; assumption.
Qed.

Lemma search_template_first (W : Collaborators) (pre post : list string)
    (d name : string) :
  Forall (fun d' => os_path_exists W (PyStr.path_join d' name) = false) pre ->
  os_path_exists W (PyStr.path_join d name) = true ->
  search_template W (pre ++ d :: post) name = Some (PyStr.path_join d name).
Proof.
  intros Hpre Hd. unfold search_template.
  induction Hpre as [|d' pre Hd' _ IH]; simpl.
  - now rewrite Hd.
  - now rewrite Hd'.
Qed.

Lemma search_template_none (W : Collaborators) (dirs : list string)
    (name : string) :
  Forall (fun d => os_path_exists W (PyStr.path_join d name) = false) dirs ->
  search_template W dirs name = None.
Proof.
  intros H. unfold search_template.
  induction H as [|d dirs Hd _ IH]; simpl; [reflexivity|].
  rewrite Hd. exact IH.
Qed.

(** X22: a template path that does not exist is looked up by its base name
    in the configured directories, in their order, and the first
    directory that holds it wins; the directory part the caller gave
    plays no role.  The located path is what the document library is
    given and what [create_presentation_from_template] reports as
    [template_path]. *)
Theorem template_found_by_search (W : Collaborators) (template_path : string)
    (pre post : list string) (d : string) (id : option string) (st : State) :
  os_path_exists W template_path = false ->
  get_template_search_directories W = Ret (pre ++ d :: post)%list ->
  Forall (fun d' =>
            os_path_exists W
              (PyStr.path_join d' (PyStr.basename template_path)) = false)
    pre ->
  os_path_exists W (PyStr.path_join d (PyStr.basename template_path)) = true ->
  let located := PyStr.path_join d (PyStr.basename template_path) in
  fst (get_template_file_info W template_path st)
  = match ppt_get_template_info W located with
    | Ret info => Ret info
    | Raise e =>
        Ret (dict_of [("error",
                       VStr ("Failed to get template info: " +:+ exn_str e))])
    end /\
  (forall pres,
      ppt_create_presentation_from_template W located = Ret pres ->
      result_field (fst (create_presentation_from_template W template_path id st))
        "template_path" = Some (VStr located) /\
      presentations
        (snd (create_presentation_from_template W template_path id st))
      = <[default (auto_id (presentations st)) id := pres]>
          (presentations st)).
Proof.
  intros He Hd Hpre Hex located.
  pose proof (search_template_first W pre post d _ Hpre Hex) as Hs.
  fold located in Hs. split.
  - unfold get_template_file_info. rewrite He. simpl.
    unfold lift, bind at 1. unfold bind at 1. rewrite Hd, Hs.
    unfold ret, try_except, call, bind, log. simpl.
    destruct (ppt_get_template_info W located) as [info|e]; reflexivity.
  - intros pres Hc.
    assert (Hrun : exists dct st',
               create_presentation_from_template W template_path id st
               = (Ret dct, st') /\
               dct !! "template_path" = Some (VStr located) /\
               presentations st'
               = <[default (auto_id (presentations st)) id := pres]>
                   (presentations st)).
    { unfold create_presentation_from_template. rewrite He. simpl.
      unfold lift, bind at 1. unfold bind at 1. rewrite Hd, Hs.
      unfold ret, try_except, call, bind, log. simpl. rewrite Hc.
      destruct id as [i|]; simpl; eexists _, _;
        (split; [reflexivity|]); split; reflexivity. }
    destruct Hrun as (dct & st' & -> & Ht & Hreg). auto.
Qed.

Lemma template_found_by_search_witness :
  let W := with_surroundings demo_world
             (fun p => String.eqb p "./templates/corporate.pptx")
             (Ret None) (Ret ["."; "./templates"]) in
  result_field
    (fst (create_presentation_from_template W "/home/me/corporate.pptx" None
            (initial_state demo_env ∅)))
    "template_path" = Some (VStr "./templates/corporate.pptx").
Proof.
  intros W.
  assert (Hpre : Forall (fun d' =>
                           os_path_exists W
                             (PyStr.path_join d'
                                (PyStr.basename "/home/me/corporate.pptx"))
                           = false) ["."])
    by (repeat constructor).
  apply (proj2 (template_found_by_search W "/home/me/corporate.pptx" ["."] []
                  "./templates" None (initial_state demo_env ∅)
                  eq_refl eq_refl Hpre eq_refl) demo_pres eq_refl).
Defined.

(** X23: a template found neither at the path given nor, by base name, in
    any configured directory: [get_template_file_info] returns "Template
    file not found" with the path and the directories searched and leaves
    the state as it was; [create_presentation_from_template] returns the
    same error, extended by the value of [PPT_TEMPLATE_PATH] when that
    variable is set and not empty, and stores nothing.  The document
    library is not called. *)
Theorem template_not_found (W : Collaborators) (template_path : string)
    (dirs : list string) (id : option string) (st : State) :
  os_path_exists W template_path = false ->
  get_template_search_directories W = Ret dirs ->
  Forall (fun d =>
            os_path_exists W
              (PyStr.path_join d (PyStr.basename template_path)) = false)
    dirs ->
  let message :=
    "Template file not found: " +:+ template_path +:+ ". Searched in "
    +:+ PyStr.join_comma dirs in
  get_template_file_info W template_path st
  = (Ret (dict_of [("error", VStr message)]), st) /\
  fst (create_presentation_from_template W template_path id st)
  = Ret (dict_of
           [("error",
             VStr ("Template file not found: " +:+ template_path
                   +:+ ". Searched in " +:+ PyStr.join_comma dirs
                   +:+ match environ st !! "PPT_TEMPLATE_PATH" with
                       | Some v =>
                           if String.eqb v EmptyString then EmptyString
                           else " (PPT_TEMPLATE_PATH: " +:+ v +:+ ")"
                       | None => EmptyString
                       end))]) /\
  presentations (snd (create_presentation_from_template W template_path id st))
  = presentations st /\
  Forall (fun ev => is_getenv ev = true)
    (events_since st
       (snd (create_presentation_from_template W template_path id st))).
Proof.
  intros He Hd Hnone message.
  pose proof (search_template_none W dirs _ Hnone) as Hs.
  split.
  { unfold get_template_file_info. rewrite He. simpl.
    unfold lift, bind at 1. unfold bind at 1. rewrite Hd, Hs. reflexivity. }
  assert (Hrun : exists evs,
             create_presentation_from_template W template_path id st
             = (Ret (dict_of
                       [("error",
                         VStr ("Template file not found: " +:+ template_path
                               +:+ ". Searched in " +:+ PyStr.join_comma dirs
                               +:+ match environ st !! "PPT_TEMPLATE_PATH" with
                                   | Some v =>
                                       if String.eqb v EmptyString
                                       then EmptyString
                                       else " (PPT_TEMPLATE_PATH: " +:+ v +:+ ")"
                                   | None => EmptyString
                                   end))]),
                add_trace st evs) /\
             Forall (fun ev => is_getenv ev = true) evs).
  { unfold create_presentation_from_template. rewrite He. simpl.
    unfold lift, bind at 1. unfold bind at 1. rewrite Hd, Hs.
    unfold getenv_default, getenv, bind, log, get_state, ret. simpl.
    destruct (environ st !! "PPT_TEMPLATE_PATH") as [v|] eqn:Ev; simpl.
    - destruct (String.eqb v EmptyString) eqn:E; simpl.
      + exists [EvGetenv "PPT_TEMPLATE_PATH"]. split; [reflexivity|].
        repeat constructor.
      + rewrite Ev. simpl.
        exists [EvGetenv "PPT_TEMPLATE_PATH"; EvGetenv "PPT_TEMPLATE_PATH"].
        split; [|repeat constructor].
        unfold add_trace. simpl. now rewrite <- app_assoc.
    - exists [EvGetenv "PPT_TEMPLATE_PATH"]. split; [reflexivity|].
      repeat constructor. }
  destruct Hrun as (evs & -> & Hevs). simpl.
  split; [reflexivity|]. split; [reflexivity|].
  now rewrite events_since_add_trace.
Qed.

Lemma template_not_found_witness :
  get_template_file_info
    (with_surroundings demo_world (fun _ => false) (Ret None)
       (Ret ["."; "./templates"]))
    "corporate.pptx" (initial_state demo_env ∅)
  = (Ret (dict_of
            [("error",
              VStr "Template file not found: corporate.pptx. Searched in ., ./templates")]),
     initial_state demo_env ∅).
Proof.
  apply (template_not_found
           (with_surroundings demo_world (fun _ => false) (Ret None)
              (Ret ["."; "./templates"]))
           "corporate.pptx" ["."; "./templates"] None
           (initial_state demo_env ∅) eq_refl eq_refl).
  repeat constructor.
Defined.
